(** * Instagram publishing agents and Firebase bootstrap: model and properties

    Shallow embedding of

    - [src/agents/image_generator.py]  (geometry normaliser + publish workflow
      without readiness polling),
    - [src/agents/instagram_poster.py] (publish workflow with readiness polling
      and caption defaulting),
    - [src/firebase_config.py]         (cloud client initialiser).

    Python code runs in a monad that threads the process environment, the
    file system, the Firebase app registry and the log of external calls, and
    that can raise.  Everything outside the repository (Cloudinary, the Graph
    API, Pillow's codecs, faults of the operating system) answers through the
    oracles stored in the world, so every statement below is quantified over
    all their behaviours.  [print] and [traceback.print_exc] only write to the
    console and are left out. *)

From Stdlib Require Import ZArith.
From stdpp Require Import base option list strings gmap.

Set Warnings "-register-all".

(** ** Python values *)

(** Values that can come out of [Response.json()] or of the Cloudinary SDK.
    A dict is kept as an association list in insertion order. *)
Inductive pyval : Type :=
  | PNone
  | PBool (b : bool)
  | PInt (z : Z)
  | PFloat (mantissa exponent : Z)
  | PStr (s : string)
  | PList (items : list pyval)
  | PDict (fields : list (string * pyval)).

Abbreviation pydict := (list (string * pyval)).

(** Exceptions: the class that [except] clauses and callers can see, and the
    text [str(e)] yields.  Every class below derives from [Exception]. *)
Inductive exn_class : Type :=
  | FileNotFoundError
  | ValueError
  | TypeError
  | AttributeError
  | ZeroDivisionError
  | UnidentifiedImageError
  | OSError
  | RequestException
  | OtherException (name : string).

Record exn : Type := Exn { exn_cls : exn_class; exn_str : string }.

Inductive Outcome (A : Type) : Type :=
  | Ok (a : A)
  | Raise (e : exn).
Arguments Ok {A} a.
Arguments Raise {A} e.

(** [d.get(k)] / [k in d] / [d[k]] on a dict. *)
Fixpoint dict_get (k : string) (d : pydict) : option pyval :=
  match d with
  | [] => None
  | (k', v) :: d' => if String.eqb k k' then Some v else dict_get k d'
  end.

Definition dict_has (k : string) (d : pydict) : bool :=
  match dict_get k d with Some _ => true | None => false end.

(** [s in t] for two strings: substring test. *)
Fixpoint str_contains (s t : string) : bool :=
  String.prefix s t ||
  match t with
  | EmptyString => false
  | String _ t' => str_contains s t'
  end.

Definition is_str (s : string) (v : pyval) : bool :=
  match v with PStr s' => String.eqb s s' | _ => false end.

(** Truth value of a Python object ([if not x]). *)
Definition truthy (v : pyval) : bool :=
  match v with
  | PNone => false
  | PBool b => b
  | PInt z => negb (z =? 0)%Z
  | PFloat m _ => negb (m =? 0)%Z
  | PStr s => negb (String.eqb s "")
  | PList l => match l with [] => false | _ => true end
  | PDict d => match d with [] => false | _ => true end
  end.

(** [k in v]: key test on a dict, element test on a list, substring test on
    a string, [TypeError] on anything else. *)
Definition py_in (k : string) (v : pyval) : Outcome bool :=
  match v with
  | PDict d => Ok (dict_has k d)
  | PList l => Ok (existsb (is_str k) l)
  | PStr s => Ok (str_contains k s)
  | _ => Raise (Exn TypeError "argument is not iterable")
  end.

(** [v[k]] with a string key: only a dict can answer. *)
Definition py_getitem (v : pyval) (k : string) : Outcome pyval :=
  match v with
  | PDict d =>
      match dict_get k d with
      | Some x => Ok x
      | None => Raise (Exn (OtherException "KeyError") k)
      end
  | _ => Raise (Exn TypeError "indices must be integers")
  end.

(** [v.get(k, default)]: only a dict has the attribute. *)
Definition py_get (v : pyval) (k : string) (dflt : pyval) : Outcome pyval :=
  match v with
  | PDict d => Ok (default dflt (dict_get k d))
  | _ => Raise (Exn AttributeError "object has no attribute 'get'")
  end.

(** [str(v)]: a [str] is itself; for every other value [str] is [repr],
    a Python built-in that the development takes as a parameter. *)
Definition py_str (py_repr : pyval → string) (v : pyval) : string :=
  match v with
  | PStr s => s
  | _ => py_repr v
  end.

(** [None] or [str], as [os.getenv] returns it. *)
Definition opt_truthy (o : option string) : bool :=
  match o with
  | Some s => negb (String.eqb s "")
  | None => false
  end.

Definition opt_val (o : option string) : pyval :=
  match o with Some s => PStr s | None => PNone end.

(** An f-string field holding the result of [os.getenv]. *)
Definition opt_fmt (o : option string) : string :=
  match o with Some s => s | None => "None" end.

(** ** Strings *)

(** [s.replace(old, new)] for a non-empty [old]: occurrences are replaced
    left to right and do not overlap.  [skip] counts the characters of a
    match that are still to be dropped. *)
Fixpoint replace_from (skip : nat) (old new s : string) : string :=
  match s with
  | EmptyString => EmptyString
  | String c s' =>
      match skip with
      | S k => replace_from k old new s'
      | O =>
          if String.prefix old s
          then new +:+ replace_from (String.length old - 1) old new s'
          else String c (replace_from 0 old new s')
      end
  end.

Definition py_replace (old new s : string) : string := replace_from 0 old new s.

Definition of_bytes (l : list nat) : string :=
  fold_right (λ n acc, String (Ascii.ascii_of_nat n) acc) EmptyString l.

(** The characters [str.strip()] removes, in UTF-8: U+0009..U+000D,
    U+001C..U+0020, U+0085, U+00A0, U+1680, U+2000..U+200A, U+2028, U+2029,
    U+202F, U+205F and U+3000. *)
Definition py_whitespace : list string :=
  map of_bytes
    [ [9]; [10]; [11]; [12]; [13]; [28]; [29]; [30]; [31]; [32];
      [194; 133]; [194; 160]; [225; 154; 128];
      [226; 128; 128]; [226; 128; 129]; [226; 128; 130]; [226; 128; 131];
      [226; 128; 132]; [226; 128; 133]; [226; 128; 134]; [226; 128; 135];
      [226; 128; 136]; [226; 128; 137]; [226; 128; 138];
      [226; 128; 168]; [226; 128; 169]; [226; 128; 175];
      [226; 129; 159]; [227; 128; 128] ].

(** Length of the entry of [table] that [s] starts with, if there is one. *)
Fixpoint leading (table : list string) (s : string) : option nat :=
  match table with
  | [] => None
  | t :: table' =>
      if String.prefix t s then Some (String.length t) else leading table' s
  end.

Fixpoint lstrip_from (skip : nat) (table : list string) (s : string) : string :=
  match s with
  | EmptyString => EmptyString
  | String c s' =>
      match skip with
      | S k => lstrip_from k table s'
      | O =>
          match leading table s with
          | Some (S k) => lstrip_from k table s'
          | _ => s
          end
      end
  end.

Definition py_lstrip (s : string) : string := lstrip_from 0 py_whitespace s.

Definition py_rstrip (s : string) : string :=
  String.rev (lstrip_from 0 (map String.rev py_whitespace) (String.rev s)).

(** [s.strip()]. *)
Definition py_strip (s : string) : string := py_rstrip (py_lstrip s).

(** ** Images and files *)

(** Pixel data is symbolic: what matters is which transform produced it. *)
Inductive Pixels : Type :=
  | Decoded (id : nat)
  | Cropped (box : Z * Z * Z * Z) (src : Pixels)
  | Resized (size : Z * Z) (src : Pixels).

Record Image : Type := MkImage { img_size : Z * Z; img_pixels : Pixels }.

Inductive File : Type :=
  | ImageFile (img : Image)
  | DataFile (content : string).

Record Credential : Type := MkCredential { cred_path : string }.
Record App : Type := MkApp { app_cred : Credential; app_bucket : string }.

(** ** The world *)

Record Response : Type := MkResponse { resp_json : Outcome pyval }.

(** Every call that leaves the interpreter, in the order it is issued. *)
Inductive Call : Type :=
  | Getenv (name : string)
  | PathExists (path : string)
  | ImageOpen (path : string)
  | ImageSave (path : string)
  | OsRemove (path : string)
  | CloudinaryUpload (path : string)
  | RequestsPost (url : string) (data : pydict)
  | RequestsGet (url : string)
  | Sleep (seconds : Z)
  | Certificate (path : string)
  | InitializeApp (bucket : string)
  | FirestoreClient
  | StorageBucket.

(** What the outside answers, given the calls made so far.  [save_leftover]
    says how far a failing [save] got: [Some partial] when the target had
    been opened for writing, [partial] being what had been written to it by
    then; [None] when it failed before that.  [save_cleanup_refused] says
    whether the removal of a file that the failing [save] had created itself
    is refused. *)
Record Outside : Type := MkOutside {
  cloudinary_reply : list Call → string → Outcome pyval;
  http_reply : list Call → Call → Outcome Response;
  io_fault : list Call → Call → option exn;
  save_leftover : list Call → string → option string;
  save_cleanup_refused : list Call → string → bool
}.

Record World : Type := MkWorld {
  w_env : gmap string string;
  w_fs : gmap string File;
  w_apps : gmap string App;
  w_trace : list Call;
  w_out : Outside
}.

Definition set_fs (fs : gmap string File) (w : World) : World :=
  MkWorld (w_env w) fs (w_apps w) (w_trace w) (w_out w).

Definition set_apps (apps : gmap string App) (w : World) : World :=
  MkWorld (w_env w) (w_fs w) apps (w_trace w) (w_out w).

Definition record (c : Call) (w : World) : World :=
  MkWorld (w_env w) (w_fs w) (w_apps w) (w_trace w ++ [c]) (w_out w).

(** ** The monad *)

Definition M (A : Type) : Type := World → Outcome A * World.

#[global] Instance M_ret : MRet M := λ A a w, (Ok a, w).

#[global] Instance M_bind : MBind M := λ A B f m w,
  match m w with
  | (Ok a, w') => f a w'
  | (Raise e, w') => (Raise e, w')
  end.

Definition raise {A} (cls : exn_class) (msg : string) : M A :=
  λ w, (Raise (Exn cls msg), w).

Definition lift {A} (o : Outcome A) : M A := λ w, (o, w).

(** A primitive step, given by its effect on the world. *)
Definition prim {A} (f : World → Outcome A * World) : M A := f.

(** [try: body  except Exception as e: handler e]. *)
Definition try_except {A} (body : M A) (handler : exn → M A) : M A := λ w,
  match body w with
  | (Ok a, w') => (Ok a, w')
  | (Raise e, w') => handler e w'
  end.

(** A call whose only failures are the ones the outside injects. *)
Definition call (c : Call) : M unit := λ w,
  match io_fault (w_out w) (w_trace w) c with
  | Some e => (Raise e, record c w)
  | None => (Ok (), record c w)
  end.

Definition quiet (c : Call) : M unit := λ w, (Ok (), record c w).

(** [for x in xs: body] with [break]. *)
Inductive LoopCtl : Type := Break | Continue.

Fixpoint for_in {X S : Type} (xs : list X) (body : X → S → M (LoopCtl * S))
    (s : S) : M S :=
  match xs with
  | [] => mret s
  | x :: xs' =>
      r ← body x s;
      match r with
      | (Break, s') => mret s'
      | (Continue, s') => for_in xs' body s'
      end
  end.

Definition py_range (n : nat) : list nat := seq 0 n.

(** ** Library calls *)

Definition os_getenv (name : string) : M (option string) :=
  quiet (Getenv name);; prim (λ w, (Ok (w_env w !! name), w)).

Definition os_getenv_default (name dflt : string) : M string :=
  v ← os_getenv name; mret (default dflt v).

Definition os_path_exists (path : string) : M bool :=
  quiet (PathExists path);;
  prim (λ w, (Ok (bool_decide (is_Some (w_fs w !! path))), w)).

(** [pathlib.Path(p)]: the empty path is the current directory. *)
Definition Path (p : string) : string := if String.eqb p "" then "." else p.

Definition os_remove (path : string) : M unit :=
  call (OsRemove path);;
  prim (λ w, match w_fs w !! path with
             | Some _ => (Ok (), set_fs (delete path (w_fs w)) w)
             | None => (Raise (Exn FileNotFoundError path), w)
             end).

Definition time_sleep (seconds : Z) : M unit := quiet (Sleep seconds).

Definition Image_open (path : string) : M Image :=
  call (ImageOpen path);;
  prim (λ w, match w_fs w !! path with
             | Some (ImageFile img) => (Ok img, w)
             | Some (DataFile _) => (Raise (Exn UnidentifiedImageError path), w)
             | None => (Raise (Exn FileNotFoundError path), w)
             end).

(** [img.crop((left, top, right, bottom))]; Pillow rejects a box whose right
    or lower edge lies before its left or upper edge. *)
Definition Image_crop (img : Image) (box : Z * Z * Z * Z) : M Image :=
  let '(left_, top, right_, bottom) := box in
  if ((right_ <? left_) || (bottom <? top))%Z
  then raise ValueError "Coordinate lower than its origin"
  else mret (MkImage ((right_ - left_)%Z, (bottom - top)%Z)
                     (Cropped box (img_pixels img))).

(** [img.resize(size, Image.Resampling.LANCZOS)]. *)
Definition Image_resize (img : Image) (size : Z * Z) : Image :=
  MkImage size (Resized size (img_pixels img)).

(** [img.save(path, quality=95)].  Pillow notes whether the target is new,
    opens it for writing, which empties a file that was already there, and
    then encodes.  When the encoder fails it closes the file, removes it if
    it was new (unless the removal is refused) and raises again; so a file
    that was already there stays, with partial data.  A save that fails
    before the target is opened touches nothing. *)
Definition Image_save (img : Image) (path : string) : M unit :=
  prim (λ w,
    match io_fault (w_out w) (w_trace w) (ImageSave path) with
    | None =>
        (Ok (),
         set_fs (<[path := ImageFile img]> (w_fs w)) (record (ImageSave path) w))
    | Some e =>
        match save_leftover (w_out w) (w_trace w) path with
        | Some partial =>
            let created := negb (bool_decide (is_Some (w_fs w !! path))) in
            let opened := <[path := DataFile partial]> (w_fs w) in
            (Raise e,
             set_fs
               (if created && negb (save_cleanup_refused (w_out w) (w_trace w) path)
                then delete path opened else opened)
               (record (ImageSave path) w))
        | None => (Raise e, record (ImageSave path) w)
        end
    end).

(** [a / b] on ints; only its exception is of interest here. *)
Definition py_truediv (a b : Z) : M unit :=
  if (b =? 0)%Z then raise ZeroDivisionError "division by zero" else mret ().

Definition cloudinary_uploader_upload (path : string) : M pyval := λ w,
  (cloudinary_reply (w_out w) (w_trace w) path, record (CloudinaryUpload path) w).

Definition requests_post (url : string) (data : pydict) : M Response := λ w,
  (http_reply (w_out w) (w_trace w) (RequestsPost url data),
   record (RequestsPost url data) w).

Definition requests_get (url : string) : M Response := λ w,
  (http_reply (w_out w) (w_trace w) (RequestsGet url),
   record (RequestsGet url) w).

Definition json (r : Response) : M pyval := lift (resp_json r).

Definition is_network (c : Call) : bool :=
  match c with
  | CloudinaryUpload _ | RequestsPost _ _ | RequestsGet _ => true
  | _ => false
  end.

Definition run {A} (m : M A) (w : World) : Outcome A * World := m w.

(** [firebase_admin]: certificates and the registry of apps. *)
Definition credentials_Certificate (path : string) : M Credential :=
  call (Certificate path);; mret (MkCredential path).

Definition firebase_admin_initialize_app (cred : Credential) (bucket : string)
    : M unit :=
  call (InitializeApp bucket);;
  prim (λ w, match w_apps w !! "[DEFAULT]" with
             | Some _ => (Raise (Exn ValueError "The default Firebase app already exists."), w)
             | None => (Ok (), set_apps (<["[DEFAULT]" := MkApp cred bucket]> (w_apps w)) w)
             end).

Definition firebase_admin_apps : M (gmap string App) :=
  prim (λ w, (Ok (w_apps w), w)).

(** ** src/agents/image_generator.py *)

Module image_generator.
Section with_repr.

Variable py_repr : pyval → string.

Definition resize_for_instagram (image_path : string) : M string :=
  try_except
    (img ← Image_open image_path;
     let '(width, height) := img_size img in
     py_truediv width height;;
     let min_dimension := Z.min width height in
     let left_ := ((width - min_dimension) / 2)%Z in
     let top := ((height - min_dimension) / 2)%Z in
     let right_ := (left_ + min_dimension)%Z in
     let bottom := (top + min_dimension)%Z in
     img_cropped ← Image_crop img (left_, top, right_, bottom);
     let img_resized := Image_resize img_cropped (1080, 1080)%Z in
     let resized_path :=
       py_replace ".jpg" "_instagram.jpg"
         (py_replace ".png" "_instagram.png" image_path) in
     Image_save img_resized resized_path;;
     mret resized_path)
    (λ e, mret image_path).

Definition instagram_post_run (image_path caption : string) : M pydict :=
  access_token ← os_getenv "INSTAGRAM_ACCESS_TOKEN";
  business_account_id ← os_getenv "INSTAGRAM_BUSINESS_ACCOUNT_ID";
  if negb (opt_truthy access_token) || negb (opt_truthy business_account_id)
  then mret [("post_status", PStr "Missing Instagram API credentials.")]
  else
  not_found ← (if String.eqb image_path "" then mret true
               else found ← os_path_exists image_path; mret (negb found));
  if (not_found : bool)
  then mret [("post_status", PStr ("Image file not found: " +:+ image_path))]
  else
  try_except
    (resized_image_path ← resize_for_instagram image_path;
     upload_result ← cloudinary_uploader_upload resized_image_path;
     image_url ← lift (py_get upload_result "secure_url" PNone);
     if negb (truthy image_url)
     then mret [("post_status", PStr "Cloudinary upload failed.")]
     else
     let upload_url :=
       "https://graph.facebook.com/v21.0/" +:+ opt_fmt business_account_id
         +:+ "/media" in
     let payload :=
       [("image_url", image_url); ("caption", PStr caption);
        ("access_token", opt_val access_token)] in
     upload_response ← requests_post upload_url payload;
     upload_data ← json upload_response;
     has_id ← lift (py_in "id" upload_data);
     if negb has_id
     then
       err ← lift (py_get upload_data "error" (PDict []));
       error_msg ← lift (py_get err "message" (PStr (py_str py_repr upload_data)));
       mret [("post_status", PStr ("Upload failed: " +:+ py_str py_repr error_msg))]
     else
     container_id ← lift (py_getitem upload_data "id");
     let publish_url :=
       "https://graph.facebook.com/v21.0/" +:+ opt_fmt business_account_id
         +:+ "/media_publish" in
     publish_response ←
       requests_post publish_url
         [("creation_id", container_id); ("access_token", opt_val access_token)];
     publish_data ← json publish_response;
     has_id ← lift (py_in "id" publish_data);
     if negb has_id
     then
       err ← lift (py_get publish_data "error" (PDict []));
       error_msg ← lift (py_get err "message" (PStr (py_str py_repr publish_data)));
       mret [("post_status", PStr ("Publish failed: " +:+ py_str py_repr error_msg))]
     else
     (if negb (String.eqb resized_image_path image_path)
      then
        found ← os_path_exists resized_image_path;
        if (found : bool)
        then try_except (os_remove resized_image_path) (λ _, mret ())
        else mret ()
      else mret ());;
     media_id ← lift (py_getitem publish_data "id");
     mret [("post_status", PStr "Successfully posted to Instagram!");
           ("media_id", media_id);
           ("caption", PStr caption);
           ("image_url", image_url)])
    (λ e, mret [("post_status", PStr ("Exception: " +:+ exn_str e))]).

End with_repr.
End image_generator.

(** ** src/agents/instagram_poster.py *)

Module instagram_poster.
Section with_repr.

Variable py_repr : pyval → string.

Definition default_caption : string :=
  "✨ Check out this beautiful handmade creation! 🎨 #handmade #artisan #craft".

(** Body of the readiness loop; the loop carries the local [status], unbound
    before the first pass. *)
Definition poll_once (status_url : string) (attempt : nat)
    (status : option pyval) : M (LoopCtl * option pyval) :=
  status_resp ← requests_get status_url;
  status_json ← json status_resp;
  status ← lift (py_get status_json "status_code" (PStr ""));
  if is_str "FINISHED" status
  then mret (Break, Some status)
  else time_sleep 2;; mret (Continue, Some status).

Definition instagram_post_run (image_path caption : string) : M pydict :=
  access_token ← os_getenv "INSTAGRAM_ACCESS_TOKEN";
  business_account_id ← os_getenv "INSTAGRAM_BUSINESS_ACCOUNT_ID";
  if negb (opt_truthy access_token) || negb (opt_truthy business_account_id)
  then mret [("post_status", PStr "Missing Instagram API credentials.");
             ("success", PBool false)]
  else
  not_found ← (if String.eqb image_path "" then mret true
               else found ← os_path_exists image_path; mret (negb found));
  if (not_found : bool)
  then mret [("post_status", PStr ("Image file not found: " +:+ image_path));
             ("success", PBool false)]
  else
  let caption :=
    if String.eqb (py_strip caption) "" then default_caption else caption in
  try_except
    (upload_result ← cloudinary_uploader_upload image_path;
     image_url ← lift (py_get upload_result "secure_url" PNone);
     if negb (truthy image_url)
     then mret [("post_status", PStr "Cloudinary upload failed.");
                ("success", PBool false)]
     else
     let upload_url :=
       "https://graph.facebook.com/v21.0/" +:+ opt_fmt business_account_id
         +:+ "/media" in
     let payload :=
       [("image_url", image_url); ("caption", PStr caption);
        ("access_token", opt_val access_token)] in
     upload_response ← requests_post upload_url payload;
     upload_data ← json upload_response;
     has_id ← lift (py_in "id" upload_data);
     if negb has_id
     then
       err ← lift (py_get upload_data "error" (PDict []));
       error_msg ← lift (py_get err "message" (PStr (py_str py_repr upload_data)));
       mret [("post_status",
              PStr ("Container creation failed: " +:+ py_str py_repr error_msg));
             ("success", PBool false)]
     else
     container_id ← lift (py_getitem upload_data "id");
     let status_url :=
       "https://graph.facebook.com/v21.0/" +:+ py_str py_repr container_id
         +:+ "?fields=status_code&access_token=" +:+ opt_fmt access_token in
     status ← for_in (py_range 5) (poll_once status_url) None;
     match status with
     | Some _ => mret ()
     | None => raise (OtherException "NameError") "name 'status' is not defined"
     end;;
     let publish_url :=
       "https://graph.facebook.com/v21.0/" +:+ opt_fmt business_account_id
         +:+ "/media_publish" in
     publish_response ←
       requests_post publish_url
         [("creation_id", container_id); ("access_token", opt_val access_token)];
     publish_data ← json publish_response;
     has_id ← lift (py_in "id" publish_data);
     if negb has_id
     then
       err ← lift (py_get publish_data "error" (PDict []));
       error_msg ← lift (py_get err "message" (PStr (py_str py_repr publish_data)));
       mret [("post_status", PStr ("Publish failed: " +:+ py_str py_repr error_msg));
             ("success", PBool false)]
     else
     media_id ← lift (py_getitem publish_data "id");
     mret [("post_status", PStr "Successfully posted to Instagram!");
           ("success", PBool true);
           ("media_id", media_id);
           ("caption", PStr caption);
           ("image_url", image_url)])
    (λ e, mret [("post_status", PStr ("Exception: " +:+ exn_str e));
                ("success", PBool false)]).

End with_repr.
End instagram_poster.

(** ** src/firebase_config.py *)

Module firebase_config.

Definition initialize_firebase : M unit :=
  apps ← firebase_admin_apps;
  if bool_decide (size apps = 0)
  then
    let render_secret_path := "/etc/secrets/FIREBASE_SERVICE_ACCOUNT_KEY" in
    local_secret_path ←
      os_getenv_default "FIREBASE_SERVICE_ACCOUNT_PATH"
        "keys/FirebaseServiceAccountKey.json";
    at_render ← os_path_exists (Path render_secret_path);
    service_account_path ←
      (if (at_render : bool) then mret render_secret_path
       else
         at_local ← os_path_exists (Path local_secret_path);
         if (at_local : bool) then mret local_secret_path
         else raise FileNotFoundError
                ("Service account key not found in either " +:+ render_secret_path
                 +:+ " or " +:+ local_secret_path
                 +:+ ". Please upload to Render Secret Files or add it locally."));
    cred ← credentials_Certificate service_account_path;
    storage_bucket ← os_getenv "FIREBASE_STORAGE_BUCKET";
    if negb (opt_truthy storage_bucket)
    then raise ValueError
           ("FIREBASE_STORAGE_BUCKET not found in environment variables. "
            +:+ "Please check your .env or Render environment variables.")
    else firebase_admin_initialize_app cred (opt_fmt storage_bucket)
  else mret ().

(** The module body: initialise, then export the two clients. *)
Definition module_body : M unit :=
  initialize_firebase;;
  call FirestoreClient;;
  call StorageBucket.

End firebase_config.

(** ** Observations on runs *)

(** The world after [t] more calls that touch nothing but the log. *)
Definition append_log (t : list Call) (w : World) : World :=
  MkWorld (w_env w) (w_fs w) (w_apps w) (w_trace w ++ t) (w_out w).

(** The world after [t] more calls that leave the files as [fs]. *)
Definition evolve (t : list Call) (fs : gmap string File) (w : World) : World :=
  MkWorld (w_env w) fs (w_apps w) (w_trace w ++ t) (w_out w).

(** The calls a run adds to the log, and what it hands back. *)
Definition calls_of {A} (m : M A) (w : World) : list Call :=
  drop (length (w_trace w)) (w_trace (run m w).2).

Definition result_of {A} (m : M A) (w : World) : Outcome A := (run m w).1.

Definition token_var : string := "INSTAGRAM_ACCESS_TOKEN".
Definition account_var : string := "INSTAGRAM_BUSINESS_ACCOUNT_ID".

Definition credentials_present (w : World) : bool :=
  opt_truthy (w_env w !! token_var) && opt_truthy (w_env w !! account_var).

Definition is_status_query (c : Call) : bool :=
  match c with RequestsGet _ => true | _ => false end.

Definition is_sleep (c : Call) : bool :=
  match c with Sleep _ => true | _ => false end.

(** The [media_publish] call is the POST that carries a [creation_id]. *)
Definition is_publish (c : Call) : bool :=
  match c with RequestsPost _ data => dict_has "creation_id" data | _ => false end.

(** Calls that stay on the machine. *)
Definition is_local (c : Call) : bool :=
  match c with
  | Getenv _ | PathExists _ | ImageOpen _ | ImageSave _ | OsRemove _ => true
  | _ => false
  end.

(** How many calls of a log satisfy [p]. *)
Definition count (p : Call → bool) (t : list Call) : nat :=
  length (List.filter p t).

Definition slept (c : Call) : Z :=
  match c with Sleep n => n | _ => 0%Z end.

Definition seconds_slept (t : list Call) : Z :=
  fold_right (λ c acc, (slept c + acc)%Z) 0%Z t.

(** The [status_code] a status query returns when it is issued after the
    calls [tr]: the reply, decoded, then [.get("status_code", "")]. *)
Definition poll_status (out : Outside) (tr : list Call) (url : string)
    : Outcome pyval :=
  match http_reply out tr (RequestsGet url) with
  | Ok resp =>
      match resp_json resp with
      | Ok body => py_get body "status_code" (PStr "")
      | Raise e => Raise e
      end
  | Raise e => Raise e
  end.

(** The JSON body a POST returns when it is issued after the calls [tr]. *)
Definition post_body (out : Outside) (tr : list Call) (c : Call) : Outcome pyval :=
  match http_reply out tr c with
  | Ok resp => resp_json resp
  | Raise e => Raise e
  end.

(** The caption a call carries, if it carries one. *)
Definition caption_sent (c : Call) : option pyval :=
  match c with
  | RequestsPost _ data => dict_get "caption" data
  | _ => None
  end.

(** What every call of the normalising workflow satisfies: it is no status
    query, no sleep, and it carries the caller's caption if it carries one. *)
Definition plain_call (caption : string) (c : Call) : Prop :=
  is_status_query c = false ∧ is_sleep c = false ∧
  (caption_sent c = None ∨ caption_sent c = Some (PStr caption)).

(** The three Graph API calls of the workflow, as it issues them in the
    world [w]. *)
Definition graph_url (w : World) (endpoint : string) : string :=
  "https://graph.facebook.com/v21.0/" +:+ opt_fmt (w_env w !! account_var)
    +:+ endpoint.

Definition container_call (w : World) (image_url : pyval) (caption : string)
    : Call :=
  RequestsPost (graph_url w "/media")
    [("image_url", image_url); ("caption", PStr caption);
     ("access_token", opt_val (w_env w !! token_var))].

Definition publish_call (w : World) (container_id : pyval) : Call :=
  RequestsPost (graph_url w "/media_publish")
    [("creation_id", container_id);
     ("access_token", opt_val (w_env w !! token_var))].

Definition status_url (py_repr : pyval → string) (w : World)
    (container_id : pyval) : string :=
  "https://graph.facebook.com/v21.0/" +:+ py_str py_repr container_id
    +:+ "?fields=status_code&access_token=" +:+ opt_fmt (w_env w !! token_var).

(** The calls of the polling workflow up to the upload. *)
Definition poster_prefix (w : World) (image_path : string) : list Call :=
  [Getenv token_var; Getenv account_var; PathExists image_path;
   CloudinaryUpload image_path].

(** A result that reports a failure, and the one that reports success. *)
Definition failed (d : pydict) : Prop :=
  dict_get "success" d = Some (PBool false) ∧ dict_get "media_id" d = None ∧
  dict_get "caption" d = None.

Definition posted (media_id : pyval) (caption : string) (image_url : pyval)
    : pydict :=
  [("post_status", PStr "Successfully posted to Instagram!");
   ("success", PBool true);
   ("media_id", media_id);
   ("caption", PStr caption);
   ("image_url", image_url)].

(** The log and the result of [n] passes of the readiness loop that starts
    after the calls [tr]. *)
Fixpoint poll_calls (out : Outside) (url : string) (n : nat) (tr : list Call)
    : list Call :=
  match n with
  | O => []
  | S n' =>
      RequestsGet url ::
      match poll_status out tr url with
      | Ok v =>
          if is_str "FINISHED" v then []
          else Sleep 2 :: poll_calls out url n' (tr ++ [RequestsGet url; Sleep 2%Z])
      | Raise _ => []
      end
  end.

Fixpoint poll_end (out : Outside) (url : string) (n : nat) (tr : list Call)
    (st : option pyval) : Outcome (option pyval) :=
  match n with
  | O => Ok st
  | S n' =>
      match poll_status out tr url with
      | Ok v =>
          if is_str "FINISHED" v then Ok (Some v)
          else poll_end out url n' (tr ++ [RequestsGet url; Sleep 2%Z]) (Some v)
      | Raise e => Raise e
      end
  end.

(** ** What the claims say about a run *)

(** A publish call is preceded by a status query. *)
Definition checked_before_publish (t : list Call) : Prop :=
  ∀ k c, t !! k = Some c → is_publish c = true →
    ∃ j url, j < k ∧ t !! j = Some (RequestsGet url).

(** The caller gets a record, and a record that does not report success
    carries [success = False]. *)
Definition captured (r : Outcome pydict) : Prop :=
  ∃ d, r = Ok d ∧ (failed d ∨ ∃ mid cap url, d = posted mid cap url).

(** The record has a boolean [success], true exactly when [media_id] is
    there. *)
Definition well_flagged (d : pydict) : Prop :=
  (∃ b, dict_get "success" d = Some (PBool b)) ∧
  (dict_get "success" d = Some (PBool true) ↔ is_Some (dict_get "media_id" d)).

(** No call carries a caption other than the default one. *)
Definition caption_defaulted (t : list Call) : Prop :=
  Forall (λ c, caption_sent c = None ∨
               caption_sent c = Some (PStr instagram_poster.default_caption)) t.

(** The string made of the pieces [ws], in order. *)
Definition joined (ws : list string) : string := foldr String.append "" ws.

(** ** Sample worlds *)

Definition sample_repr (v : pyval) : string := "<object>".

Definition replies (v : pyval) : Outcome Response := Ok (MkResponse (Ok v)).

(** A Graph API whose containers never get ready, behind a Cloudinary that
    returns [secure_url]. *)
Definition slow_graph (secure_url : pydict) : Outside :=
  MkOutside
    (λ _ _, Ok (PDict secure_url))
    (λ _ c,
       match c with
       | RequestsGet _ => replies (PDict [("status_code", PStr "IN_PROGRESS")])
       | RequestsPost _ data =>
           if dict_has "creation_id" data
           then replies (PDict [("id", PStr "17900000000000001")])
           else replies (PDict [("id", PStr "17800000000000001")])
       | _ => Raise (Exn RequestException "not an HTTP call")
       end)
    (λ _ _, None)
    (λ _ _, None)
    (λ _ _, false).

Definition sample_env : gmap string string :=
  <[token_var := "EAAB-token"]> (<[account_var := "1784140000"]> ∅).

Definition sample_fs : gmap string File :=
  <["photo.png" := ImageFile (MkImage (4, 2)%Z (Decoded 0))]>
    (<["photo.jpeg" := ImageFile (MkImage (4, 2)%Z (Decoded 1))]> ∅).

Definition hosted : pydict := [("secure_url", PStr "https://res.cloudinary.com/demo/photo.png")].

(** Credentials set, both images on disk, every remote call answering. *)
Definition ready_world : World :=
  MkWorld sample_env sample_fs ∅ [] (slow_graph hosted).

(** The same machine without credentials. *)
Definition bare_world : World :=
  MkWorld ∅ sample_fs ∅ [] (slow_graph hosted).

(** The same machine when Cloudinary returns no [secure_url]. *)
Definition unhosted_world : World :=
  MkWorld sample_env sample_fs ∅ [] (slow_graph []).

(** A Graph API that reports [FINISHED] from the second status query on. *)
Definition quick_graph : Outside :=
  MkOutside
    (λ _ _, Ok (PDict hosted))
    (λ tr c,
       match c with
       | RequestsGet _ =>
           if (1 <=? count is_status_query tr)%nat
           then replies (PDict [("status_code", PStr "FINISHED")])
           else replies (PDict [("status_code", PStr "IN_PROGRESS")])
       | RequestsPost _ data =>
           if dict_has "creation_id" data
           then replies (PDict [("id", PStr "17900000000000001")])
           else replies (PDict [("id", PStr "17800000000000001")])
       | _ => Raise (Exn RequestException "not an HTTP call")
       end)
    (λ _ _, None)
    (λ _ _, None)
    (λ _ _, false).

Definition quick_world : World :=
  MkWorld sample_env sample_fs ∅ [] quick_graph.

(** A Graph API whose status endpoint is down. *)
Definition broken_status : Outside :=
  MkOutside
    (λ _ _, Ok (PDict hosted))
    (λ tr c,
       match c with
       | RequestsPost _ _ => replies (PDict [("id", PStr "17800000000000001")])
       | _ => Raise (Exn RequestException "connection refused")
       end)
    (λ _ _, None)
    (λ _ _, None)
    (λ _ _, false).

Definition broken_status_world : World :=
  MkWorld sample_env sample_fs ∅ [] broken_status.

(** A machine on which files cannot be removed. *)
Definition undeletable : Outside :=
  MkOutside
    (cloudinary_reply (slow_graph hosted))
    (http_reply (slow_graph hosted))
    (λ _ c,
       match c with
       | OsRemove _ => Some (Exn OSError "Permission denied")
       | _ => None
       end)
    (λ _ _, None)
    (λ _ _, false).

Definition undeletable_world : World :=
  MkWorld sample_env sample_fs ∅ [] undeletable.

(** A machine with a service-account key but no storage bucket set. *)
Definition keyed_world : World :=
  MkWorld ∅ (<["keys/FirebaseServiceAccountKey.json" := DataFile "{}"]> ∅) ∅ []
    (slow_graph hosted).

(** A process in which the default Firebase app exists already. *)
Definition initialised_world : World :=
  MkWorld ∅ ∅ (<["[DEFAULT]" := MkApp (MkCredential "key.json") "bucket"]> ∅) []
    (slow_graph hosted).

(** ** Further observations *)

(** The path under which [resize_for_instagram] saves its result. *)
Definition resized_path_of (image_path : string) : string :=
  py_replace ".jpg" "_instagram.jpg"
    (py_replace ".png" "_instagram.png" image_path).

(** What Cloudinary answers to the upload of the polling workflow, and what
    the Graph API answers to its container call. *)
Definition upload_reply_of (w : World) (image_path : string) : Outcome pyval :=
  cloudinary_reply (w_out w)
    (w_trace w ++ [Getenv token_var; Getenv account_var; PathExists image_path])
    image_path.

Definition container_body_of (w : World) (image_path : string)
    (image_url : pyval) (caption : string) : Outcome pyval :=
  post_body (w_out w) (w_trace w ++ poster_prefix w image_path)
    (container_call w image_url caption).

(** The caption the polling workflow works with. *)
Definition effective_caption (caption : string) : string :=
  if String.eqb (py_strip caption) "" then instagram_poster.default_caption
  else caption.

Definition exception_record (e : exn) : pydict :=
  [("post_status", PStr ("Exception: " +:+ exn_str e)); ("success", PBool false)].

(** More sample worlds: an image of height 0, and a machine set up for
    Firebase. *)
Definition flat_world : World :=
  MkWorld sample_env
    (<["flat.png" := ImageFile (MkImage (5, 0)%Z (Decoded 2))]> sample_fs) ∅ []
    (slow_graph hosted).

Definition bucket_world : World :=
  MkWorld (<["FIREBASE_STORAGE_BUCKET" := "demo.appspot.com"]> ∅)
    (<["keys/FirebaseServiceAccountKey.json" := DataFile "{}"]> ∅) ∅ []
    (slow_graph hosted).

(** A Cloudinary that is down, and a Graph API that rejects the container. *)
Definition no_cloudinary : Outside :=
  MkOutside
    (λ _ _, Raise (Exn RequestException "cloudinary unreachable"))
    (http_reply (slow_graph hosted))
    (λ _ _, None)
    (λ _ _, None)
    (λ _ _, false).

Definition no_cloudinary_world : World :=
  MkWorld sample_env sample_fs ∅ [] no_cloudinary.

Definition rejecting_graph : Outside :=
  MkOutside
    (λ _ _, Ok (PDict hosted))
    (λ _ _, replies (PDict [("error", PDict [("message", PStr "Invalid image")])]))
    (λ _ _, None)
    (λ _ _, None)
    (λ _ _, false).

Definition rejecting_world : World :=
  MkWorld sample_env sample_fs ∅ [] rejecting_graph.

Definition garbled_graph : Outside :=
  MkOutside
    (λ _ _, Ok (PDict hosted))
    (λ _ _, replies (PStr "invalid request"))
    (λ _ _, None)
    (λ _ _, None)
    (λ _ _, false).

Definition garbled_world : World :=
  MkWorld sample_env sample_fs ∅ [] garbled_graph.

(** A Graph API whose containers are ready at once. *)
Definition instant_graph : Outside :=
  MkOutside
    (λ _ _, Ok (PDict hosted))
    (λ _ c,
       match c with
       | RequestsGet _ => replies (PDict [("status_code", PStr "FINISHED")])
       | RequestsPost _ data =>
           if dict_has "creation_id" data
           then replies (PDict [("id", PStr "17900000000000001")])
           else replies (PDict [("id", PStr "17800000000000001")])
       | _ => Raise (Exn RequestException "not an HTTP call")
       end)
    (λ _ _, None)
    (λ _ _, None)
    (λ _ _, false).

Definition instant_world : World :=
  MkWorld sample_env sample_fs ∅ [] instant_graph.

(** A machine whose key file cannot be loaded, and no storage bucket set. *)
Definition unloadable_key : Outside :=
  MkOutside
    (λ _ _, Ok (PDict hosted))
    (http_reply (slow_graph hosted))
    (λ _ c,
       match c with
       | Certificate _ => Some (Exn OSError "[Errno 13] Permission denied: 'keys/FirebaseServiceAccountKey.json'")
       | _ => None
       end)
    (λ _ _, None)
    (λ _ _, false).

Definition unloadable_key_world : World :=
  MkWorld ∅ (<["keys/FirebaseServiceAccountKey.json" := DataFile "{}"]> ∅) ∅ []
    unloadable_key.

(** A Pillow that fails every save after having opened the target. *)
Definition failing_encoder : Outside :=
  MkOutside
    (λ _ _, Ok (PDict hosted))
    (http_reply (slow_graph hosted))
    (λ _ c,
       match c with
       | ImageSave _ => Some (Exn OSError "cannot write mode RGBA as JPEG")
       | _ => None
       end)
    (λ _ _, Some "")
    (λ _ _, false).

Definition failing_encoder_world : World :=
  MkWorld sample_env sample_fs ∅ [] failing_encoder.

(** ** The key search of [initialize_firebase] *)

Definition render_secret_path : string := "/etc/secrets/FIREBASE_SERVICE_ACCOUNT_KEY".

Definition local_secret_path_of (w : World) : string :=
  default "keys/FirebaseServiceAccountKey.json"
    (w_env w !! "FIREBASE_SERVICE_ACCOUNT_PATH").

(** The key file [initialize_firebase] picks when one exists, and the calls
    it has made when it picks it. *)
Definition service_account_path_of (w : World) : string :=
  if bool_decide (is_Some (w_fs w !! Path render_secret_path))
  then render_secret_path else local_secret_path_of w.

Definition key_search_calls (w : World) : list Call :=
  Getenv "FIREBASE_SERVICE_ACCOUNT_PATH" :: PathExists (Path render_secret_path) ::
  (if bool_decide (is_Some (w_fs w !! Path render_secret_path)) then []
   else [PathExists (Path (local_secret_path_of w))]).

(** How [credentials.Certificate] fails on that key file, if it does. *)
Definition key_load_fault (w : World) : option exn :=
  io_fault (w_out w) (w_trace w ++ key_search_calls w)
    (Certificate (service_account_path_of w)).

(** * Properties *)

(** ** Running a program *)

Lemma run_bind {A B} (m : M A) (f : A → M B) (w : World) :
  run (m ≫= f) w =
  match run m w with
  | (Ok a, w') => run (f a) w'
  | (Raise e, w') => (Raise e, w')
  end.
Proof. reflexivity. Qed.

Lemma run_ret {A} (a : A) (w : World) : run (mret a) w = (Ok a, w).
Proof. reflexivity. Qed.

Lemma run_getenv (name : string) (w : World) :
  run (os_getenv name) w = (Ok (w_env w !! name), append_log [Getenv name] w).
Proof. reflexivity. Qed.

Lemma run_path_exists (path : string) (w : World) :
  run (os_path_exists path) w =
  (Ok (bool_decide (is_Some (w_fs w !! path))), append_log [PathExists path] w).
Proof. reflexivity. Qed.

Lemma append_log_nil (w : World) : append_log [] w = w.
Proof. destruct w; unfold append_log; simpl. by rewrite app_nil_r. Qed.

Lemma append_log_app (t1 t2 : list Call) (w : World) :
  append_log t2 (append_log t1 w) = append_log (t1 ++ t2) w.
Proof. unfold append_log; simpl. by rewrite app_assoc. Qed.

Lemma record_log (c : Call) (w : World) : record c w = append_log [c] w.
Proof. reflexivity. Qed.

Lemma run_lift {A} (o : Outcome A) (w : World) : run (lift o) w = (o, w).
Proof. reflexivity. Qed.

Lemma run_raise {A} (cls : exn_class) (msg : string) (w : World) :
  run (raise (A:=A) cls msg) w = (Raise (Exn cls msg), w).
Proof. reflexivity. Qed.

Lemma run_json (r : Response) (w : World) : run (json r) w = (resp_json r, w).
Proof. reflexivity. Qed.

Lemma run_requests_get (url : string) (w : World) :
  run (requests_get url) w =
  (http_reply (w_out w) (w_trace w) (RequestsGet url),
   append_log [RequestsGet url] w).
Proof. reflexivity. Qed.

Lemma run_requests_post (url : string) (data : pydict) (w : World) :
  run (requests_post url data) w =
  (http_reply (w_out w) (w_trace w) (RequestsPost url data),
   append_log [RequestsPost url data] w).
Proof. reflexivity. Qed.

Lemma run_upload (path : string) (w : World) :
  run (cloudinary_uploader_upload path) w =
  (cloudinary_reply (w_out w) (w_trace w) path,
   append_log [CloudinaryUpload path] w).
Proof. reflexivity. Qed.

Lemma run_sleep (n : Z) (w : World) :
  run (time_sleep n) w = (Ok (), append_log [Sleep n] w).
Proof. reflexivity. Qed.

Lemma run_try_except {A} (body : M A) (handler : exn → M A) (w : World) :
  run (try_except body handler) w =
  match run body w with
  | (Ok a, w') => (Ok a, w')
  | (Raise e, w') => run (handler e) w'
  end.
Proof. reflexivity. Qed.

Lemma run_call (c : Call) (w : World) :
  run (call c) w =
  (match io_fault (w_out w) (w_trace w) c with
   | Some e => Raise e
   | None => Ok ()
   end, append_log [c] w).
Proof. unfold run, call. by destruct (io_fault _ _ _). Qed.

Lemma evolve_evolve (t1 t2 : list Call) (fs1 fs2 : gmap string File) (w : World) :
  evolve t2 fs2 (evolve t1 fs1 w) = evolve (t1 ++ t2) fs2 w.
Proof. unfold evolve; simpl. by rewrite app_assoc. Qed.

Lemma evolve_append_log (t1 t2 : list Call) (fs : gmap string File) (w : World) :
  evolve t2 fs (append_log t1 w) = evolve (t1 ++ t2) fs w.
Proof. unfold evolve, append_log; simpl. by rewrite app_assoc. Qed.

Lemma append_log_evolve (t1 t2 : list Call) (fs : gmap string File) (w : World) :
  append_log t2 (evolve t1 fs w) = evolve (t1 ++ t2) fs w.
Proof. unfold evolve, append_log; simpl. by rewrite app_assoc. Qed.

Lemma run_image_open (path : string) (w : World) :
  run (Image_open path) w =
  (match io_fault (w_out w) (w_trace w) (ImageOpen path) with
   | Some e => Raise e
   | None =>
       match w_fs w !! path with
       | Some (ImageFile img) => Ok img
       | Some (DataFile _) => Raise (Exn UnidentifiedImageError path)
       | None => Raise (Exn FileNotFoundError path)
       end
   end, append_log [ImageOpen path] w).
Proof.
  unfold Image_open. rewrite run_bind, run_call.
  destruct (io_fault _ _ _); [done|]. unfold run, prim. simpl.
  by destruct (w_fs w !! path) as [[?|?]|].
Qed.

Lemma run_image_save (img : Image) (path : string) (w : World) :
  run (Image_save img path) w =
  match io_fault (w_out w) (w_trace w) (ImageSave path) with
  | Some e =>
      (Raise e,
       evolve [ImageSave path]
         (match save_leftover (w_out w) (w_trace w) path with
          | Some partial =>
              if bool_decide (is_Some (w_fs w !! path)) ||
                 save_cleanup_refused (w_out w) (w_trace w) path
              then <[path := DataFile partial]> (w_fs w)
              else w_fs w
          | None => w_fs w
          end) w)
  | None => (Ok (), evolve [ImageSave path] (<[path := ImageFile img]> (w_fs w)) w)
  end.
Proof.
  unfold Image_save, run, prim.
  destruct (io_fault _ _ _); [|done].
  destruct (save_leftover _ _ _) as [partial|]; [|done].
  destruct (w_fs w !! path) as [f|] eqn:Hpath.
  - by rewrite bool_decide_eq_true_2.
  - rewrite bool_decide_eq_false_2 by (by intros [? ?]). cbn [negb andb orb].
    destruct (save_cleanup_refused _ _ _); cbn [negb]; [done|].
    by rewrite delete_insert_id.
Qed.

Lemma run_os_remove (path : string) (w : World) :
  run (os_remove path) w =
  match io_fault (w_out w) (w_trace w) (OsRemove path) with
  | Some e => (Raise e, append_log [OsRemove path] w)
  | None =>
      match w_fs w !! path with
      | Some _ => (Ok (), evolve [OsRemove path] (delete path (w_fs w)) w)
      | None => (Raise (Exn FileNotFoundError path), append_log [OsRemove path] w)
      end
  end.
Proof.
  unfold os_remove. rewrite run_bind, run_call.
  destruct (io_fault _ _ _); [done|]. unfold run, prim. simpl.
  by destruct (w_fs w !! path).
Qed.

Lemma run_truediv (a b : Z) (w : World) :
  run (py_truediv a b) w =
  (if (b =? 0)%Z then Raise (Exn ZeroDivisionError "division by zero") else Ok (), w).
Proof. unfold py_truediv. by destruct (b =? 0)%Z. Qed.

Lemma run_apps (w : World) : run firebase_admin_apps w = (Ok (w_apps w), w).
Proof. reflexivity. Qed.

Lemma run_getenv_default (name dflt : string) (w : World) :
  run (os_getenv_default name dflt) w =
  (Ok (default dflt (w_env w !! name)), append_log [Getenv name] w).
Proof. reflexivity. Qed.

Lemma run_certificate (path : string) (w : World) :
  run (credentials_Certificate path) w =
  (match io_fault (w_out w) (w_trace w) (Certificate path) with
   | Some e => Raise e
   | None => Ok (MkCredential path)
   end, append_log [Certificate path] w).
Proof.
  unfold credentials_Certificate. rewrite run_bind, run_call.
  by destruct (io_fault _ _ _).
Qed.

Create Rewrite HintDb run.

#[local] Hint Rewrite @run_bind @run_ret @run_lift @run_raise run_json
  run_getenv run_path_exists run_requests_get run_requests_post run_upload
  run_sleep append_log_app run_image_open run_truediv
  run_image_save run_os_remove @run_try_except
  run_apps run_getenv_default run_certificate
  evolve_evolve evolve_append_log append_log_evolve : run.

Ltac exec :=
  autorewrite with run;
  cbn [w_env w_fs w_apps w_out w_trace append_log evolve app].

Lemma run_poll_once (url : string) (a : nat) (st : option pyval) (w : World) :
  run (instagram_poster.poll_once url a st) w =
  match poll_status (w_out w) (w_trace w) url with
  | Ok v =>
      if is_str "FINISHED" v
      then (Ok (Break, Some v), append_log [RequestsGet url] w)
      else (Ok (Continue, Some v), append_log [RequestsGet url; Sleep 2%Z] w)
  | Raise e => (Raise e, append_log [RequestsGet url] w)
  end.
Proof.
  unfold instagram_poster.poll_once, poll_status. exec.
  destruct (http_reply (w_out w) (w_trace w) (RequestsGet url)) as [resp|e];
    [|reflexivity].
  exec. destruct (resp_json resp) as [body|e]; [|reflexivity].
  exec. destruct (py_get body "status_code" (PStr "")) as [v|e]; [|reflexivity].
  destruct (is_str "FINISHED" v); exec; reflexivity.
Qed.

Lemma run_poll_loop (url : string) (n a : nat) (st : option pyval) (w : World) :
  run (for_in (seq a n) (instagram_poster.poll_once url) st) w =
  (poll_end (w_out w) url n (w_trace w) st,
   append_log (poll_calls (w_out w) url n (w_trace w)) w).
Proof.
  revert a st w. induction n as [|n IH]; intros a st w.
  - simpl. by rewrite run_ret, append_log_nil.
  - simpl seq. simpl for_in. rewrite run_bind, run_poll_once.
    simpl poll_calls. simpl poll_end.
    destruct (poll_status (w_out w) (w_trace w) url) as [v|e]; [|reflexivity].
    destruct (is_str "FINISHED" v); [reflexivity|].
    rewrite IH. exec. reflexivity.
Qed.

Lemma poll_end_bound (out : Outside) (url : string) (n : nat)
    (tr : list Call) (st a : option pyval) :
  poll_end out url n tr st = Ok a → (a = st ∧ n = 0) ∨ ∃ v, a = Some v.
Proof.
  revert tr st. induction n as [|n IH]; intros tr st; simpl.
  - intros [= <-]. by left.
  - destruct (poll_status out tr url) as [v|e]; [|done].
    destruct (is_str "FINISHED" v).
    + intros [= <-]. right. by exists v.
    + intros H. destruct (IH _ _ H) as [[-> _]|?]; [|by right]. right. by exists v.
Qed.

(** ** The polling workflow, path by path *)

Lemma poster_run (py_repr : pyval → string) (w : World)
    (image_path caption : string) :
  let cap :=
    if String.eqb (py_strip caption) "" then instagram_poster.default_caption
    else caption in
  ∃ d t,
    run (instagram_poster.instagram_post_run py_repr image_path caption) w =
      (Ok d, append_log t w) ∧
    ((failed d ∧
      (t = [Getenv token_var; Getenv account_var] ∨
       t = [Getenv token_var; Getenv account_var; PathExists image_path] ∨
       t = poster_prefix w image_path ∨
       ∃ image_url, t = poster_prefix w image_path ++ [container_call w image_url cap]))
     ∨
     ∃ image_url cid,
       let pre := poster_prefix w image_path ++ [container_call w image_url cap] in
       let url := status_url py_repr w cid in
       let polls := poll_calls (w_out w) url 5 (w_trace w ++ pre) in
       (failed d ∧ t = pre ++ polls ∧
        ∃ e, poll_end (w_out w) url 5 (w_trace w ++ pre) None = Raise e)
       ∨
       (t = pre ++ polls ++ [publish_call w cid] ∧
        (∃ st, poll_end (w_out w) url 5 (w_trace w ++ pre) None = Ok (Some st)) ∧
        match post_body (w_out w) (w_trace w ++ pre ++ polls) (publish_call w cid) with
        | Ok (PDict pd) =>
            match dict_get "id" pd with
            | Some mid => d = posted mid cap image_url
            | None => failed d
            end
        | _ => failed d
        end)).
Proof.
  intros cap. unfold instagram_poster.instagram_post_run. fold cap.
  exec.
  destruct (negb (opt_truthy (w_env w !! "INSTAGRAM_ACCESS_TOKEN"))
            || negb (opt_truthy (w_env w !! "INSTAGRAM_BUSINESS_ACCOUNT_ID"))).
  { exec. eexists _, _. split; [reflexivity|]. left. split; [by split|]. by left. }
  destruct (String.eqb image_path "").
  { exec. eexists _, _. split; [reflexivity|]. left. split; [by split|]. by left. }
  exec.
  destruct (bool_decide (is_Some (w_fs w !! image_path))); cbn [negb].
  2:{ exec. eexists _, _. split; [reflexivity|]. left. split; [by split|].
      right. by left. }
  rewrite run_try_except. exec.
  destruct (cloudinary_reply _ _ _) as [upload_result|e].
  2:{ exec. eexists _, _. split; [reflexivity|]. left. split; [by split|].
      right. right. by left. }
  exec. destruct (py_get upload_result _ _) as [image_url|e].
  2:{ exec. eexists _, _. split; [reflexivity|]. left. split; [by split|].
      right. right. by left. }
  destruct (negb (truthy image_url)).
  { exec. eexists _, _. split; [reflexivity|]. left. split; [by split|].
      right. right. by left. }
  exec.
  destruct (http_reply _ _ _) as [upload_response|e].
  2:{ exec. eexists _, _. split; [reflexivity|]. left. split; [by split|].
      right. right. right. by eexists. }
  exec. destruct (resp_json upload_response) as [upload_data|e].
  2:{ exec. eexists _, _. split; [reflexivity|]. left. split; [by split|].
      right. right. right. by eexists. }
  exec. destruct (py_in "id" upload_data) as [has_id|e].
  2:{ exec. eexists _, _. split; [reflexivity|]. left. split; [by split|].
      right. right. right. by eexists. }
  destruct has_id; cbn [negb].
  2:{ exec. destruct (py_get upload_data _ _) as [err|e].
      2:{ exec. eexists _, _. split; [reflexivity|]. left. split; [by split|].
          right. right. right. by eexists. }
      exec. destruct (py_get err _ _) as [error_msg|e].
      2:{ exec. eexists _, _. split; [reflexivity|]. left. split; [by split|].
          right. right. right. by eexists. }
      exec. eexists _, _. split; [reflexivity|]. left. split; [by split|].
      right. right. right. by eexists. }
  exec. destruct (py_getitem upload_data "id") as [cid|e].
  2:{ exec. eexists _, _. split; [reflexivity|]. left. split; [by split|].
      right. right. right. by eexists. }
  unfold py_range. exec. rewrite run_poll_loop. exec.
  destruct (poll_end _ _ _ _ _) as [st|e] eqn:Hend.
  2:{ exec. eexists _, _. split; [reflexivity|]. right. exists image_url, cid.
      left. split; [by split|]. split; [reflexivity|]. by exists e. }
  destruct (poll_end_bound _ _ _ _ _ _ Hend) as [[_ ?]|[v ->]]; [done|].
  exec.
  destruct (http_reply _ _ _) as [publish_response|e] eqn:Hreply.
  2:{ exec. eexists _, _. split; [reflexivity|]. right. exists image_url, cid.
      right. split; [reflexivity|]. split; [by exists v|].
      unfold post_body.
      lazymatch type of Hreply with ?lhs = _ =>
        change (http_reply _ _ _) with lhs end.
      rewrite Hreply. by split. }
  exec. destruct (resp_json publish_response) as [publish_data|e] eqn:Hjson.
  2:{ exec. eexists _, _. split; [reflexivity|]. right. exists image_url, cid.
      right. split; [reflexivity|]. split; [by exists v|].
      unfold post_body.
      lazymatch type of Hreply with ?lhs = _ =>
        change (http_reply _ _ _) with lhs end.
      rewrite Hreply, Hjson. by split. }
  exec.
  assert (Hbody :
    post_body (w_out w)
      (w_trace w ++
       (poster_prefix w image_path ++ [container_call w image_url cap]) ++
       poll_calls (w_out w) (status_url py_repr w cid) 5
         (w_trace w ++ poster_prefix w image_path ++ [container_call w image_url cap]))
      (publish_call w cid) = Ok publish_data).
  { unfold post_body.
    lazymatch type of Hreply with ?lhs = _ =>
      change (http_reply _ _ _) with lhs end.
    by rewrite Hreply. }
  clear Hreply Hjson.
  destruct publish_data as [| | | | s|l|pd]; simpl py_in; exec;
    try (eexists _, _; split; [reflexivity|]; right; exists image_url, cid;
         right; split; [reflexivity|]; split; [by exists v|];
         rewrite Hbody; by split).
  - destruct (str_contains "id" s); cbn [negb]; exec;
      eexists _, _; (split; [reflexivity|]); right; exists image_url, cid;
      right; (split; [reflexivity|]); (split; [by exists v|]);
      rewrite Hbody; by split.
  - destruct (existsb (is_str "id") l); cbn [negb]; exec;
      eexists _, _; (split; [reflexivity|]); right; exists image_url, cid;
      right; (split; [reflexivity|]); (split; [by exists v|]);
      rewrite Hbody; by split.
  - unfold dict_has. simpl py_getitem. simpl py_get.
    destruct (dict_get "id" pd) as [mid|] eqn:Hid; cbn [negb]; exec.
    + eexists _, _. split; [reflexivity|]. right. exists image_url, cid.
      right. split; [reflexivity|]. split; [by exists v|].
      rewrite Hbody, Hid. reflexivity.
    + destruct (py_get _ _ _) as [error_msg|e]; exec;
        eexists _, _; (split; [reflexivity|]); right; exists image_url, cid;
        right; (split; [reflexivity|]); (split; [by exists v|]);
        rewrite Hbody, Hid; by split.
Qed.

(** ** The log of the readiness loop *)

Section poll_log.

Variables (out : Outside) (url : string).

Lemma poll_calls_shape (n : nat) (tr : list Call) :
  Forall (λ c, c = RequestsGet url ∨ c = Sleep 2%Z) (poll_calls out url n tr).
Proof.
  revert tr. induction n as [|n IH]; intros tr; simpl; [constructor|].
  constructor; [by left|].
  destruct (poll_status out tr url) as [v|e]; [|constructor].
  destruct (is_str "FINISHED" v); [constructor|].
  constructor; [by right|]. apply IH.
Qed.

Lemma poll_calls_queries (n : nat) (tr : list Call) :
  count is_status_query (poll_calls out url n tr) ≤ n.
Proof.
  revert tr. induction n as [|n IH]; intros tr; simpl poll_calls; [done|].
  unfold count in *. simpl.
  destruct (poll_status out tr url) as [v|e]; [|simpl; lia].
  destruct (is_str "FINISHED" v); [simpl; lia|].
  simpl. specialize (IH (tr ++ [RequestsGet url; Sleep 2%Z])). lia.
Qed.

Lemma poll_calls_sleeps (n : nat) (tr : list Call) :
  count is_sleep (poll_calls out url n tr) ≤ n.
Proof.
  revert tr. induction n as [|n IH]; intros tr; simpl poll_calls; [done|].
  unfold count in *. simpl.
  destruct (poll_status out tr url) as [v|e]; [|simpl; lia].
  destruct (is_str "FINISHED" v); [simpl; lia|].
  simpl. specialize (IH (tr ++ [RequestsGet url; Sleep 2%Z])). lia.
Qed.

Lemma poll_calls_publish (n : nat) (tr : list Call) :
  count is_publish (poll_calls out url n tr) = 0.
Proof.
  revert tr. induction n as [|n IH]; intros tr; simpl poll_calls; [done|].
  unfold count in *. simpl.
  destruct (poll_status out tr url) as [v|e]; [|done].
  destruct (is_str "FINISHED" v); [done|].
  simpl. apply IH.
Qed.

Lemma poll_calls_seconds (n : nat) (tr : list Call) :
  (seconds_slept (poll_calls out url n tr) ≤ 2 * Z.of_nat n)%Z.
Proof.
  revert tr. induction n as [|n IH]; intros tr; simpl poll_calls; [done|].
  destruct (poll_status out tr url) as [v|e]; [|simpl; lia].
  destruct (is_str "FINISHED" v); [simpl; lia|].
  specialize (IH (tr ++ [RequestsGet url; Sleep 2%Z])).
  unfold seconds_slept in *. simpl. lia.
Qed.

(** A loop that raises has slept fewer than [n] times. *)
Lemma poll_end_raise (n : nat) (tr : list Call) (st : option pyval) (e : exn) :
  poll_end out url n tr st = Raise e →
  count is_sleep (poll_calls out url n tr) < n.
Proof.
  revert tr st. induction n as [|n IH]; intros tr st; simpl; [done|].
  unfold count in *. simpl.
  destruct (poll_status out tr url) as [v|e']; [|simpl; lia].
  destruct (is_str "FINISHED" v); [done|].
  intros H. apply IH in H. simpl. lia.
Qed.

(** What follows each status query of the loop. *)
Lemma poll_calls_next (n : nat) (tr : list Call) (st : option pyval)
    (k : nat) (u : string) :
  poll_calls out url n tr !! k = Some (RequestsGet u) →
  u = url ∧
  match poll_status out (tr ++ take k (poll_calls out url n tr)) url with
  | Ok v =>
      if is_str "FINISHED" v
      then S k = length (poll_calls out url n tr) ∧
           poll_end out url n tr st = Ok (Some v)
      else poll_calls out url n tr !! S k = Some (Sleep 2%Z)
  | Raise e =>
      S k = length (poll_calls out url n tr) ∧
      poll_end out url n tr st = Raise e
  end.
Proof.
  revert tr st k. induction n as [|n IH]; intros tr st k; simpl; [done|].
  destruct k as [|[|k]]; simpl.
  - intros [= <-]. split; [done|]. rewrite app_nil_r.
    destruct (poll_status out tr url) as [v|e]; [|done].
    by destruct (is_str "FINISHED" v).
  - destruct (poll_status out tr url) as [v|e]; [|done].
    by destruct (is_str "FINISHED" v).
  - destruct (poll_status out tr url) as [v|e]; [|done].
    destruct (is_str "FINISHED" v); [done|]. simpl.
    intros H. destruct (IH _ (Some v) _ H) as [-> Hnext]. split; [done|].
    replace (tr ++ RequestsGet url :: Sleep 2%Z ::
               take k (poll_calls out url n (tr ++ [RequestsGet url; Sleep 2%Z])))
      with ((tr ++ [RequestsGet url; Sleep 2%Z]) ++
               take k (poll_calls out url n (tr ++ [RequestsGet url; Sleep 2%Z])))
      by (by rewrite <- app_assoc).
    simpl length.
    destruct (poll_status out _ url) as [v'|e'].
    + destruct (is_str "FINISHED" v'); [|exact Hnext].
      destruct Hnext as [-> ->]. done.
    + destruct Hnext as [-> ->]. done.
Qed.

End poll_log.

(** ** Reading a run off its equation *)

Lemma observe_run {A} (m : M A) (w : World) (r : Outcome A) (t : list Call) :
  run m w = (r, append_log t w) → calls_of m w = t ∧ result_of m w = r.
Proof.
  intros H. unfold calls_of, result_of. rewrite H. simpl.
  by rewrite drop_app_length.
Qed.

Lemma count_app (p : Call → bool) (t1 t2 : list Call) :
  count p (t1 ++ t2) = count p t1 + count p t2.
Proof. unfold count. by rewrite List.filter_app, length_app. Qed.

Lemma seconds_slept_app (t1 t2 : list Call) :
  seconds_slept (t1 ++ t2) = (seconds_slept t1 + seconds_slept t2)%Z.
Proof.
  induction t1 as [|c t1 IH]; simpl; [done|].
  unfold seconds_slept in *. simpl. rewrite IH. lia.
Qed.

Lemma poll_calls_only_sleep_2 (out : Outside) (url : string) (n : nat)
    (tr : list Call) :
  Forall (λ c, is_sleep c = true → c = Sleep 2%Z) (poll_calls out url n tr).
Proof.
  eapply Forall_impl; [apply poll_calls_shape|].
  intros c [->| ->]; [done|done].
Qed.

(** ** C6: the geometry normaliser *)

(** C6.  For an image file of width [W > 0] and height [H > 0] that Pillow
    can read and write, [resize_for_instagram] crops the box
    [(left, top, left + m, top + m)] with [m = min(W, H)],
    [left = (W - m) // 2] and [top = (H - m) // 2], which is an [m] x [m]
    square inside the frame, resizes the crop to 1080 x 1080 and saves that
    image; when [W = H] the box is the whole frame [(0, 0, W, H)]. *)
Theorem center_crop_geometry (w : World) (image_path : string) (img : Image)
    (W H : Z) :
  w_fs w !! image_path = Some (ImageFile img) →
  img_size img = (W, H) →
  (0 < W)%Z → (0 < H)%Z →
  (∀ tr c, io_fault (w_out w) tr c = None) →
  let m := Z.min W H in
  let left_ := ((W - m) / 2)%Z in
  let top := ((H - m) / 2)%Z in
  let box := (left_, top, (left_ + m)%Z, (top + m)%Z) in
  let resized_path :=
    py_replace ".jpg" "_instagram.jpg"
      (py_replace ".png" "_instagram.png" image_path) in
  let derived :=
    MkImage (1080, 1080)%Z (Resized (1080, 1080)%Z (Cropped box (img_pixels img))) in
  run (image_generator.resize_for_instagram image_path) w =
    (Ok resized_path,
     evolve [ImageOpen image_path; ImageSave resized_path]
       (<[resized_path := ImageFile derived]> (w_fs w)) w) ∧
  run (Image_crop img box) w =
    (Ok (MkImage (m, m) (Cropped box (img_pixels img))), w) ∧
  (0 ≤ left_ ∧ 0 ≤ top ∧ left_ + m ≤ W ∧ top + m ≤ H)%Z ∧
  (W = H → box = (0, 0, W, H)%Z).
Proof.
  intros Hfile Hsize HW HH Hfault m left_ top box resized_path derived.
  assert (Hm : (0 < m ≤ W ∧ m ≤ H)%Z) by (unfold m; lia).
  assert (Hl : (0 ≤ left_ ∧ 2 * left_ ≤ W - m)%Z).
  { unfold left_. split; [apply Z.div_pos; lia|].
    apply Z.mul_div_le. lia. }
  assert (Ht : (0 ≤ top ∧ 2 * top ≤ H - m)%Z).
  { unfold top. split; [apply Z.div_pos; lia|].
    apply Z.mul_div_le. lia. }
  assert (Hcrop : run (Image_crop img box) w =
                  (Ok (MkImage (m, m) (Cropped box (img_pixels img))), w)).
  { unfold Image_crop, box.
    destruct (left_ + m <? left_)%Z eqn:E1; [lia|].
    destruct (top + m <? top)%Z eqn:E2; [lia|]. simpl.
    rewrite run_ret.
    replace (left_ + m - left_)%Z with m by lia.
    by replace (top + m - top)%Z with m by lia. }
  split; [|split; [done|split; [lia|]]].
  - unfold image_generator.resize_for_instagram.
    rewrite run_try_except. exec. rewrite Hfault, Hfile, Hsize.
    exec. destruct (H =? 0)%Z eqn:E; [lia|].
    fold m. fold left_. fold top. fold box.
    replace (run (Image_crop img box) (append_log [ImageOpen image_path] w))
      with (Ok (MkImage (m, m) (Cropped box (img_pixels img))),
            append_log [ImageOpen image_path] w).
    2:{ unfold Image_crop, box.
        destruct (left_ + m <? left_)%Z eqn:E1; [lia|].
        destruct (top + m <? top)%Z eqn:E2; [lia|]. simpl.
        rewrite run_ret.
        replace (left_ + m - left_)%Z with m by lia.
        by replace (top + m - top)%Z with m by lia. }
    fold resized_path. rewrite run_bind, run_image_save.
    cbn [w_out]. rewrite Hfault. exec. reflexivity.
  - intros ->. unfold box, left_, top, m.
    rewrite Z.min_id, Z.sub_diag. simpl. done.
Qed.

(** ** The normalising workflow, path by path *)

Lemma local_plain (caption : string) (c : Call) :
  is_local c = true → plain_call caption c.
Proof. destruct c; try done; intros _; repeat split; by left. Qed.

Lemma run_resize (image_path : string) (w : World) :
  ∃ p t fs,
    run (image_generator.resize_for_instagram image_path) w =
      (Ok p, evolve t fs w) ∧
    Forall (λ c, is_local c = true) t.
Proof.
  unfold image_generator.resize_for_instagram.
  rewrite run_try_except. exec.
  destruct (io_fault _ _ _).
  { exec. eexists _, _, _. split; [reflexivity|]. by repeat constructor. }
  destruct (w_fs w !! image_path) as [[img|?]|];
    try (exec; eexists _, _, _; split; [reflexivity|]; by repeat constructor).
  destruct (img_size img) as [width height]. exec.
  destruct (height =? 0)%Z.
  { exec. eexists _, _, _. split; [reflexivity|]. by repeat constructor. }
  unfold Image_crop.
  destruct (_ || _).
  { exec. eexists _, _, _. split; [reflexivity|]. by repeat constructor. }
  exec.
  destruct (io_fault _ _ _).
  - exec. eexists _, _, _. split; [reflexivity|]. by repeat constructor.
  - exec. eexists _, _, _. split; [reflexivity|]. by repeat constructor.
Qed.

Lemma append_log_as_evolve (t : list Call) (w : World) :
  append_log t w = evolve t (w_fs w) w.
Proof. reflexivity. Qed.

Ltac plain_log Hloc :=
  repeat first
    [ by apply Forall_nil
    | apply Forall_cons; split;
        [ split; [reflexivity|split; [reflexivity|(by left) || (by right)]] |]
    | apply Forall_app; split
    | eapply Forall_impl; [exact Hloc|]; intros ? ?; by apply local_plain ].

Ltac leaf Hloc :=
  exec; rewrite ?append_log_as_evolve;
  eexists _, _, _; split; [reflexivity|]; split; [plain_log Hloc|];
  split; [reflexivity|by left].

Ltac last_step Hloc :=
  exec; destruct (py_getitem _ "id") as [?|?];
  [ exec; rewrite ?append_log_as_evolve;
    eexists _, _, _; (split; [reflexivity|]); (split; [plain_log Hloc|]);
    (split; [reflexivity|]); right; by eexists _, _
  | leaf Hloc ].

Lemma generator_run (py_repr : pyval → string) (w : World)
    (image_path caption : string) :
  ∃ d t fs,
    run (image_generator.instagram_post_run py_repr image_path caption) w =
      (Ok d, evolve t fs w) ∧
    Forall (plain_call caption) t ∧
    dict_get "success" d = None ∧
    (dict_get "media_id" d = None ∨
     ∃ mid image_url,
       d = [("post_status", PStr "Successfully posted to Instagram!");
            ("media_id", mid); ("caption", PStr caption);
            ("image_url", image_url)]).
Proof.
  unfold image_generator.instagram_post_run. exec.
  assert (Hnone : Forall (λ c : Call, is_local c = true) []) by constructor.
  destruct (negb _ || negb _); [leaf Hnone|].
  destruct (String.eqb image_path ""); [leaf Hnone|].
  exec. destruct (bool_decide _); cbn [negb]; [|leaf Hnone].
  exec.
  match goal with |- context [run (image_generator.resize_for_instagram ?p) ?w1] =>
    destruct (run_resize p w1) as (rp & t1 & fs1 & Hres & Hloc); rewrite Hres
  end.
  clear Hnone. exec.
  destruct (cloudinary_reply _ _ _) as [upload_result|e]; [|leaf Hloc].
  exec. destruct (py_get upload_result _ _) as [image_url|e]; [|leaf Hloc].
  destruct (negb (truthy image_url)); [leaf Hloc|].
  exec. destruct (http_reply _ _ _) as [upload_response|e]; [|leaf Hloc].
  exec. destruct (resp_json upload_response) as [upload_data|e]; [|leaf Hloc].
  exec. destruct (py_in "id" upload_data) as [has_id|e]; [|leaf Hloc].
  destruct has_id; cbn [negb].
  2:{ exec. destruct (py_get upload_data _ _) as [err|e]; [|leaf Hloc].
      exec. destruct (py_get err _ _) as [error_msg|e]; leaf Hloc. }
  exec. destruct (py_getitem upload_data "id") as [cid|e]; [|leaf Hloc].
  exec. destruct (http_reply _ _ _) as [publish_response|e]; [|leaf Hloc].
  exec. destruct (resp_json publish_response) as [publish_data|e]; [|leaf Hloc].
  exec. destruct (py_in "id" publish_data) as [has_id|e]; [|leaf Hloc].
  destruct has_id; cbn [negb].
  2:{ exec. destruct (py_get publish_data _ _) as [err|e]; [|leaf Hloc].
      exec. destruct (py_get err _ _) as [error_msg|e]; leaf Hloc. }
  exec. destruct (negb (String.eqb rp image_path)); [|last_step Hloc].
  exec. destruct (bool_decide _); [|last_step Hloc].
  exec. destruct (io_fault _ _ _); [last_step Hloc|].
  destruct (fs1 !! rp); last_step Hloc.
Qed.

(** ** C5: missing credentials *)

(** C5.  When the access token or the business account id is absent from the
    environment (or empty), both workflows return at once the record whose
    status is the missing-credentials message, after reading the two
    variables and nothing else: no network call is made and no file is
    touched. *)
Theorem missing_credentials_no_network (py_repr : pyval → string) (w : World)
    (image_path caption : string) :
  credentials_present w = false →
  run (instagram_poster.instagram_post_run py_repr image_path caption) w =
    (Ok [("post_status", PStr "Missing Instagram API credentials.");
         ("success", PBool false)],
     append_log [Getenv token_var; Getenv account_var] w) ∧
  run (image_generator.instagram_post_run py_repr image_path caption) w =
    (Ok [("post_status", PStr "Missing Instagram API credentials.")],
     append_log [Getenv token_var; Getenv account_var] w) ∧
  count is_network
    (calls_of (instagram_poster.instagram_post_run py_repr image_path caption) w) = 0 ∧
  count is_network
    (calls_of (image_generator.instagram_post_run py_repr image_path caption) w) = 0.
Proof.
  intros Hc.
  assert (Hgate : negb (opt_truthy (w_env w !! "INSTAGRAM_ACCESS_TOKEN"))
                  || negb (opt_truthy (w_env w !! "INSTAGRAM_BUSINESS_ACCOUNT_ID"))
                  = true).
  { unfold credentials_present, token_var, account_var in Hc.
    destruct (opt_truthy _), (opt_truthy _); done. }
  assert (Hp : run (instagram_poster.instagram_post_run py_repr image_path caption) w =
    (Ok [("post_status", PStr "Missing Instagram API credentials.");
         ("success", PBool false)],
     append_log [Getenv token_var; Getenv account_var] w)).
  { unfold instagram_poster.instagram_post_run. exec. rewrite Hgate. by exec. }
  assert (Hg : run (image_generator.instagram_post_run py_repr image_path caption) w =
    (Ok [("post_status", PStr "Missing Instagram API credentials.")],
     append_log [Getenv token_var; Getenv account_var] w)).
  { unfold image_generator.instagram_post_run. exec. rewrite Hgate. by exec. }
  split; [done|]. split; [done|].
  destruct (observe_run _ _ _ _ Hp) as [-> _].
  destruct (observe_run _ _ _ _ Hg) as [-> _]. done.
Qed.

Lemma missing_credentials_no_network_witness :
  credentials_present bare_world = false ∧
  count is_network
    (calls_of (instagram_poster.instagram_post_run sample_repr "photo.png" "hello")
       bare_world) = 0.
Proof.
  split; [reflexivity|].
  apply (missing_credentials_no_network sample_repr bare_world "photo.png" "hello").
  reflexivity.
Defined.

(** ** C7: where the derived asset is written *)

(** A path that holds neither [.png] nor [.jpg] is its own "suffix-tagged"
    path. *)
Lemma replace_absent (old new s : string) :
  str_contains old s = false → py_replace old new s = s.
Proof.
  unfold py_replace. induction s as [|c s IH]; [done|].
  intros Hs. cbn [str_contains] in Hs. apply orb_false_elim in Hs as [Hp Hs].
  cbn [replace_from]. rewrite Hp. by rewrite IH.
Qed.

Lemma untagged_path (image_path : string) :
  str_contains ".png" image_path = false →
  str_contains ".jpg" image_path = false →
  py_replace ".jpg" "_instagram.jpg"
    (py_replace ".png" "_instagram.png" image_path) = image_path.
Proof. intros Hpng Hjpg. by rewrite (replace_absent ".png"), replace_absent. Qed.

(** C7 (the code departs from it).  On [photo.jpeg], a 4 x 2 image,
    [resize_for_instagram] saves the 1080 x 1080 crop under the very path it
    was given and returns that path: the original file is overwritten. *)
Theorem resize_overwrites_untagged_original :
  let before := ready_world in
  let after := (run (image_generator.resize_for_instagram "photo.jpeg") before).2 in
  result_of (image_generator.resize_for_instagram "photo.jpeg") before
    = Ok "photo.jpeg" ∧
  calls_of (image_generator.resize_for_instagram "photo.jpeg") before
    = [ImageOpen "photo.jpeg"; ImageSave "photo.jpeg"] ∧
  w_fs before !! "photo.jpeg" = Some (ImageFile (MkImage (4, 2)%Z (Decoded 1))) ∧
  w_fs after !! "photo.jpeg" =
    Some (ImageFile (MkImage (1080, 1080)%Z
            (Resized (1080, 1080)%Z (Cropped (1, 0, 3, 2)%Z (Decoded 1))))).
Proof. by vm_compute. Qed.

(** ** C8: cleaning up the derived asset *)

(** C8 (the code departs from it).  When Cloudinary returns no [secure_url]
    for [photo.png], the normalising workflow returns its failure record and
    the derived file [photo_instagram.png], which it created, is still on
    disk: no [os.remove] was attempted. *)
Theorem failed_upload_leaves_derived_file :
  let before := unhosted_world in
  let m := image_generator.instagram_post_run sample_repr "photo.png" "hello" in
  result_of m before = Ok [("post_status", PStr "Cloudinary upload failed.")] ∧
  w_fs before !! "photo_instagram.png" = None ∧
  is_Some (w_fs (run m before).2 !! "photo_instagram.png") ∧
  calls_of m before =
    [Getenv token_var; Getenv account_var; PathExists "photo.png";
     ImageOpen "photo.png"; ImageSave "photo_instagram.png";
     CloudinaryUpload "photo_instagram.png"].
Proof. vm_compute. repeat split; try done. by eexists. Qed.

(** On the success path the derived file is removed. *)
Example successful_post_removes_derived_file :
  let m := image_generator.instagram_post_run sample_repr "photo.png" "hello" in
  w_fs (run m ready_world).2 !! "photo_instagram.png" = None ∧
  w_fs (run m ready_world).2 !! "photo.png" = w_fs ready_world !! "photo.png".
Proof. by vm_compute. Qed.

(** ** C2: a readiness check before every publish call *)

Lemma observe_evolved {A} (m : M A) (w : World) (r : Outcome A)
    (t : list Call) (fs : gmap string File) :
  run m w = (r, evolve t fs w) → calls_of m w = t ∧ result_of m w = r.
Proof.
  intros H. unfold calls_of, result_of. rewrite H. simpl.
  by rewrite drop_app_length.
Qed.

Lemma plain_no_query (caption : string) (t : list Call) :
  Forall (plain_call caption) t → count is_status_query t = 0.
Proof.
  induction 1 as [|c t [Hq _] _ IH]; [done|].
  unfold count in *. simpl. by rewrite Hq.
Qed.

Lemma poll_calls_head (out : Outside) (url : string) (n : nat) (tr : list Call) :
  poll_calls out url (S n) tr !! 0 = Some (RequestsGet url).
Proof. reflexivity. Qed.

Lemma poll_calls_no_post (out : Outside) (url : string) (n : nat)
    (tr : list Call) (k : nat) (u : string) (data : pydict) :
  poll_calls out url n tr !! k ≠ Some (RequestsPost u data).
Proof.
  intros Hk.
  pose proof (poll_calls_shape out url n tr) as Hshape.
  rewrite Forall_lookup in Hshape. by destruct (Hshape _ _ Hk).
Qed.

(** C2, as the code has it.  In the polling workflow the publish call is
    never issued unless a status query came first, and that query is the one
    on the container being published.  The normalising workflow has no
    readiness check: it never issues a status query. *)
Theorem status_check_precedes_publish (py_repr : pyval → string) (w : World)
    (image_path caption : string) :
  let t := calls_of (instagram_poster.instagram_post_run py_repr image_path caption) w in
  checked_before_publish t ∧
  (∀ k u data cid,
     t !! k = Some (RequestsPost u data) →
     dict_get "creation_id" data = Some cid →
     ∃ j, j < k ∧ t !! j = Some (RequestsGet (status_url py_repr w cid))) ∧
  count is_status_query
    (calls_of (image_generator.instagram_post_run py_repr image_path caption) w) = 0.
Proof.
  intros t.
  assert (Hstrong : ∀ k u data cid,
     t !! k = Some (RequestsPost u data) →
     dict_get "creation_id" data = Some cid →
     ∃ j, j < k ∧ t !! j = Some (RequestsGet (status_url py_repr w cid))).
  { destruct (poster_run py_repr w image_path caption) as (d & t' & Hrun & Hpaths).
    destruct (observe_run _ _ _ _ Hrun) as [Ht _]. fold t in Ht. subst t'.
    clear Hrun. intros k u data cid Hk Hcid.
    destruct Hpaths as [[_ Ht]|(image_url & cid' & Hpolled)].
    - exfalso. unfold container_call in Ht.
      destruct Ht as [Ht|[Ht|[Ht|[iu Ht]]]]; rewrite Ht in Hk;
        repeat (destruct k as [|k]; simplify_eq/=).
    - cbv zeta in Hpolled.
      set (pre := poster_prefix w image_path ++ _) in *.
      set (polls := poll_calls _ _ _ _) in *.
      assert (Hpre : ∀ k, pre !! k = Some (RequestsPost u data) → False).
      { intros k' Hk'. unfold pre, container_call in Hk'.
        repeat (destruct k' as [|k']; simplify_eq/=). }
      assert (Hlen : length pre = 5) by reflexivity.
      assert (Hfirst : (pre ++ polls) !! 5 =
                       Some (RequestsGet (status_url py_repr w cid'))).
      { rewrite lookup_app_r by (rewrite Hlen; lia). by rewrite Hlen. }
      destruct Hpolled as [(_ & Ht & _)|(Ht & _)]; rewrite Ht in Hk.
      + exfalso. apply lookup_app_Some in Hk as [Hk|[_ Hk]]; [by eapply Hpre|].
        by eapply poll_calls_no_post.
      + rewrite app_assoc in Hk. apply lookup_app_Some in Hk as [Hk|[Hge Hk]].
        { exfalso. apply lookup_app_Some in Hk as [Hk|[_ Hk]]; [by eapply Hpre|].
          by eapply poll_calls_no_post. }
        destruct (k - length (pre ++ polls)) as [|?] eqn:Hlast; [|done].
        simpl in Hk. injection Hk as <- <-. simpl in Hcid. injection Hcid as <-.
        exists 5. rewrite Ht, app_assoc. split.
        * rewrite length_app, Hlen in Hge.
          assert (0 < length polls) by (unfold polls; simpl; lia). lia.
        * by apply lookup_app_l_Some. }
  split; [|split; [exact Hstrong|]].
  - intros k c Hk Hpub. destruct c as [| | | | | |u data| | | | | |]; try done.
    simpl in Hpub. unfold dict_has in Hpub.
    destruct (dict_get "creation_id" data) as [cid|] eqn:Hcid; [|done].
    destruct (Hstrong _ _ _ _ Hk Hcid) as (j & Hj & Hq). by eexists j, _.
  - destruct (generator_run py_repr w image_path caption)
      as (d & t' & fs & Hrun & Hplain & _).
    destruct (observe_evolved _ _ _ _ _ Hrun) as [-> _].
    by eapply plain_no_query.
Qed.

(** C2 fails on the normalising workflow: with every remote call answering,
    it publishes [photo.png] without a single status query. *)
Lemma generator_publishes_unchecked :
  ¬ checked_before_publish
      (calls_of (image_generator.instagram_post_run sample_repr "photo.png" "hello")
         ready_world).
Proof.
  intros Hchecked.
  destruct (Hchecked 7
              (RequestsPost "https://graph.facebook.com/v21.0/1784140000/media_publish"
                 [("creation_id", PStr "17800000000000001");
                  ("access_token", PStr "EAAB-token")]))
    as (j & url & Hj & Hq); [by vm_compute|reflexivity|].
  vm_compute in Hq.
  do 7 (destruct j as [|j]; [discriminate Hq|]). lia.
Qed.

(** ** C3: failures come back as records *)

Lemma poster_captured (py_repr : pyval → string) (w : World)
    (image_path caption : string) :
  captured (result_of (instagram_poster.instagram_post_run py_repr image_path caption) w).
Proof.
  destruct (poster_run py_repr w image_path caption) as (d & t & Hrun & Hpaths).
  destruct (observe_run _ _ _ _ Hrun) as [_ ->]. exists d. split; [done|].
  destruct Hpaths as [[Hd _]|(image_url & cid & [(Hd & _)|(_ & _ & Hbody)])];
    [by left|by left|].
  destruct (post_body _ _ _) as [[| | | | | |pd]|]; try by left.
  destruct (dict_get "id" pd) as [mid|]; [|by left].
  right. by eexists _, _, _.
Qed.

(** C3, as the code has it.  Neither workflow raises to its caller: each
    returns a record.  The polling workflow maps every failure to a record
    with [success = False]; the normalising workflow never sets a [success]
    key, and a failure there is a record without [media_id]. *)
Theorem failures_are_captured (py_repr : pyval → string) (w : World)
    (image_path caption : string) :
  captured (result_of (instagram_poster.instagram_post_run py_repr image_path caption) w) ∧
  ∃ d,
    result_of (image_generator.instagram_post_run py_repr image_path caption) w = Ok d ∧
    dict_get "success" d = None ∧
    (dict_get "media_id" d = None ∨
     dict_get "post_status" d = Some (PStr "Successfully posted to Instagram!")).
Proof.
  split; [apply poster_captured|].
  destruct (generator_run py_repr w image_path caption)
    as (d & t & fs & Hrun & _ & Hflag & Hid).
  destruct (observe_evolved _ _ _ _ _ Hrun) as [_ ->]. exists d.
  split; [done|]. split; [done|].
  destruct Hid as [?|(mid & url & ->)]; [by left|by right].
Qed.

(** C3 fails on the normalising workflow: without credentials it returns a
    failure record that has no [success] key. *)
Lemma generator_failure_unflagged :
  ¬ captured
      (result_of (image_generator.instagram_post_run sample_repr "photo.png" "hello")
         bare_world).
Proof.
  intros (d & Hd & Hshape). vm_compute in Hd. injection Hd as <-.
  destruct Hshape as [[Hflag _]|(mid & cap & url & Heq)]; discriminate.
Qed.

(** ** C4: the success flag *)

Lemma not_published (t pre : list Call) (c : Call) :
  count is_publish t = 0 → t = pre ++ [c] → is_publish c = true → False.
Proof.
  intros Hnone -> Hc. rewrite count_app in Hnone.
  unfold count in Hnone. simpl in Hnone. rewrite Hc in Hnone. simpl in Hnone. lia.
Qed.

(** C4, as the code has it.  The polling workflow always returns a record
    with a boolean [success], which is true exactly when [media_id] is in the
    record, and exactly when the run got as far as the publish call and that
    call returned an object with an [id] (the [media_id] of the record).  The
    normalising workflow returns records without a [success] key. *)
Theorem success_flag_meaning (py_repr : pyval → string) (w : World)
    (image_path caption : string) :
  let m := instagram_poster.instagram_post_run py_repr image_path caption in
  (∃ d,
     result_of m w = Ok d ∧ well_flagged d ∧
     (dict_get "success" d = Some (PBool true) ↔
      ∃ pre c pd mid,
        calls_of m w = pre ++ [c] ∧ is_publish c = true ∧
        post_body (w_out w) (w_trace w ++ pre) c = Ok (PDict pd) ∧
        dict_get "id" pd = Some mid ∧
        dict_get "media_id" d = Some mid)) ∧
  (∃ d,
     result_of (image_generator.instagram_post_run py_repr image_path caption) w
       = Ok d ∧
     dict_get "success" d = None).
Proof.
  intros m. split.
  2:{ destruct (generator_run py_repr w image_path caption)
        as (d & t & fs & Hrun & _ & Hflag & _).
      destruct (observe_evolved _ _ _ _ _ Hrun) as [_ ->]. by exists d. }
  destruct (poster_run py_repr w image_path caption) as (d & t & Hrun & Hpaths).
  destruct (observe_run _ _ _ _ Hrun) as [Ht Hr]. fold m in Ht, Hr.
  rewrite Ht, Hr. clear Hrun Ht Hr. exists d. split; [done|].
  assert (Hfailed : failed d → count is_publish t = 0 →
    well_flagged d ∧
    (dict_get "success" d = Some (PBool true) ↔
     ∃ pre c pd mid,
       t = pre ++ [c] ∧ is_publish c = true ∧
       post_body (w_out w) (w_trace w ++ pre) c = Ok (PDict pd) ∧
       dict_get "id" pd = Some mid ∧ dict_get "media_id" d = Some mid)).
  { intros (Hs & Hm & _) Hnone. split.
    - split; [by eexists|]. rewrite Hs, Hm. split; [done|]. by intros [? ?].
    - rewrite Hs. split; [done|].
      intros (pre & c & _ & _ & Heq & Hc & _). exfalso.
      by eapply not_published. }
  destruct Hpaths as [[Hd Ht]|(image_url & cid & Hpolled)].
  - apply Hfailed; [done|].
    by destruct Ht as [->|[->|[->|[u ->]]]].
  - cbv zeta in Hpolled.
    set (pre := poster_prefix w image_path ++ _) in *.
    set (polls := poll_calls _ _ _ _) in *.
    assert (Hquiet : count is_publish (pre ++ polls) = 0).
    { rewrite count_app. unfold polls. by rewrite poll_calls_publish. }
    destruct Hpolled as [(Hd & -> & _)|(-> & _ & Hbody)]; [by apply Hfailed|].
    rewrite app_assoc.
    assert (Hgen : failed d →
      well_flagged d ∧
      (dict_get "success" d = Some (PBool true) ↔
       ∃ pre0 c pd mid,
         (pre ++ polls) ++ [publish_call w cid] = pre0 ++ [c] ∧
         is_publish c = true ∧
         post_body (w_out w) (w_trace w ++ pre0) c = Ok (PDict pd) ∧
         dict_get "id" pd = Some mid ∧ dict_get "media_id" d = Some mid)).
    { intros (Hs & Hm & _). split.
      - split; [by eexists|]. rewrite Hs, Hm. split; [done|]. by intros [? ?].
      - rewrite Hs. split; [done|].
        intros (pre0 & c & pd & mid & _ & _ & _ & _ & Hmid). congruence. }
    destruct (post_body _ _ _) as [[| | | | | |pd]|] eqn:Hreply;
      try (by apply Hgen).
    destruct (dict_get "id" pd) as [mid|] eqn:Hid.
    + subst d. split.
      * split; [by eexists|]. split; [by eexists|done].
      * split; [|done]. intros _.
        exists (pre ++ polls), (publish_call w cid), pd, mid.
        by rewrite Hreply.
    + intros. split.
      * destruct Hbody as (Hs & Hm & _).
        split; [by eexists|]. rewrite Hs, Hm. split; [done|]. by intros [? ?].
      * destruct Hbody as (Hs & Hm & _). rewrite Hs. split; [done|].
        intros (pre0 & c & pd' & mid & Heq & _ & Hreply' & Hid' & _).
        apply app_inj_tail in Heq as [<- <-].
        rewrite Hreply in Hreply'. injection Hreply' as <-. congruence.
Qed.

(** C4 fails on the normalising workflow: the record of a successful post
    holds a [media_id] and no [success] key. *)
Lemma generator_success_unflagged :
  ∃ d,
    result_of (image_generator.instagram_post_run sample_repr "photo.png" "hello")
      ready_world = Ok d ∧
    is_Some (dict_get "media_id" d) ∧
    ¬ well_flagged d.
Proof.
  eexists. split; [by vm_compute|]. split; [by eexists|].
  intros [[b Hb] _]. discriminate Hb.
Qed.

(** ** Witnesses and examples *)

Lemma center_crop_geometry_witness :
  run (image_generator.resize_for_instagram "photo.png") ready_world =
    (Ok "photo_instagram.png",
     evolve [ImageOpen "photo.png"; ImageSave "photo_instagram.png"]
       (<["photo_instagram.png" :=
            ImageFile (MkImage (1080, 1080)%Z
              (Resized (1080, 1080)%Z (Cropped (1, 0, 3, 2)%Z (Decoded 0))))]>
          (w_fs ready_world))
       ready_world).
Proof.
  apply (center_crop_geometry ready_world "photo.png"
           (MkImage (4, 2)%Z (Decoded 0)) 4 2).
  - reflexivity.
  - reflexivity.
  - lia.
  - lia.
  - intros tr c. reflexivity.
Defined.

Example replace_png : py_replace ".png" "_instagram.png" "a.png" = "a_instagram.png".
Proof. reflexivity. Qed.

Example replace_does_not_overlap : py_replace "aa" "b" "aaaaa" = "bba".
Proof. reflexivity. Qed.

Example replace_both_suffixes :
  py_replace ".jpg" "_instagram.jpg" (py_replace ".png" "_instagram.png" "a.png.jpg")
  = "a_instagram.png_instagram.jpg".
Proof. reflexivity. Qed.

Example strip_mixed_whitespace :
  py_strip (of_bytes [32; 194; 160; 104; 105; 32; 10]) = "hi".
Proof. reflexivity. Qed.

Example strip_keeps_inner_space : py_strip " a b " = "a b".
Proof. reflexivity. Qed.

(** Five passes, ten seconds, then the publish call. *)
Example slow_container_is_published_anyway :
  let m := instagram_poster.instagram_post_run sample_repr "photo.png" "hello" in
  count is_status_query (calls_of m ready_world) = 5 ∧
  seconds_slept (calls_of m ready_world) = 10%Z ∧
  last (calls_of m ready_world) =
    Some (publish_call ready_world (PStr "17800000000000001")) ∧
  result_of m ready_world =
    Ok (posted (PStr "17900000000000001") "hello"
          (PStr "https://res.cloudinary.com/demo/photo.png")).
Proof. by vm_compute. Qed.

(** [FINISHED] on the second pass: one sleep, then the publish call. *)
Example finished_on_second_poll :
  calls_of (instagram_poster.instagram_post_run sample_repr "photo.png" "hello")
    quick_world =
  poster_prefix quick_world "photo.png" ++
  [container_call quick_world (PStr "https://res.cloudinary.com/demo/photo.png") "hello";
   RequestsGet (status_url sample_repr quick_world (PStr "17800000000000001"));
   Sleep 2;
   RequestsGet (status_url sample_repr quick_world (PStr "17800000000000001"));
   publish_call quick_world (PStr "17800000000000001")].
Proof. by vm_compute. Qed.

(** A status query that raises ends the run in the exception record, and
    nothing is published. *)
Example failing_status_query_is_reported :
  result_of (instagram_poster.instagram_post_run sample_repr "photo.png" "hello")
    broken_status_world =
    Ok [("post_status", PStr "Exception: connection refused");
        ("success", PBool false)] ∧
  count is_publish
    (calls_of (instagram_poster.instagram_post_run sample_repr "photo.png" "hello")
       broken_status_world) = 0.
Proof. by vm_compute. Qed.

(** An [os.remove] that raises does not change the outcome of a successful
    post; the derived file stays. *)
Example removal_error_is_swallowed :
  result_of (image_generator.instagram_post_run sample_repr "photo.png" "hello")
    undeletable_world =
    Ok [("post_status", PStr "Successfully posted to Instagram!");
        ("media_id", PStr "17900000000000001");
        ("caption", PStr "hello");
        ("image_url", PStr "https://res.cloudinary.com/demo/photo.png")] ∧
  is_Some
    (w_fs (run (image_generator.instagram_post_run sample_repr "photo.png" "hello")
             undeletable_world).2 !! "photo_instagram.png").
Proof. vm_compute. split; [done|by eexists]. Qed.

(** A save that fails after Pillow has opened its target leaves what the
    encoder had written by then in place of the file that was there. *)
Example failed_save_damages_target :
  let img := MkImage (1080, 1080)%Z (Decoded 1) in
  let w := set_fs (<["out.jpg" := DataFile "old"]> sample_fs) failing_encoder_world in
  (run (Image_save img "out.jpg") w).1 =
    Raise (Exn OSError "cannot write mode RGBA as JPEG") ∧
  w_fs (run (Image_save img "out.jpg") w).2 !! "out.jpg" = Some (DataFile "") ∧
  w_fs (run (Image_save img "new.jpg") w).2 !! "new.jpg" = None.
Proof. by vm_compute. Qed.

(** * Further properties *)

(** ** The derived path *)

Lemma prefix_length (s1 s2 : string) :
  String.prefix s1 s2 = true → String.length s1 ≤ String.length s2.
Proof.
  revert s2. induction s1 as [|a s1 IH]; intros s2; simpl; [lia|].
  destruct s2 as [|b s2]; [done|]. simpl.
  destruct (Ascii.ascii_dec a b); [|done]. intros H. apply IH in H. lia.
Qed.

Lemma append_length (s1 s2 : string) :
  String.length (s1 +:+ s2) = String.length s1 + String.length s2.
Proof. induction s1 as [|a s1 IH]; simpl; [done|]. by rewrite IH. Qed.

Lemma replace_from_length (old new s : string) (skip : nat) :
  0 < String.length old ≤ String.length new →
  skip ≤ String.length s →
  String.length s ≤ String.length (replace_from skip old new s) + skip.
Proof.
  intros Hlen. revert skip. induction s as [|c s IH]; intros skip Hskip.
  - simpl in *. lia.
  - cbn [replace_from]. destruct skip as [|k].
    + destruct (String.prefix old (String c s)) eqn:Hp.
      * apply prefix_length in Hp. simpl in Hp.
        rewrite append_length.
        assert (Hk : String.length old - 1 ≤ String.length s) by lia.
        apply IH in Hk. simpl. lia.
      * assert (Hk : 0 ≤ String.length s) by lia.
        apply IH in Hk. simpl. lia.
    + simpl in Hskip. assert (Hk : k ≤ String.length s) by lia.
      apply IH in Hk. simpl. lia.
Qed.

Lemma replace_grows (old new s : string) :
  0 < String.length old < String.length new →
  str_contains old s = true →
  String.length s < String.length (py_replace old new s).
Proof.
  intros Hlen. unfold py_replace. induction s as [|c s IH].
  - destruct old; [simpl in Hlen; lia|done].
  - cbn [str_contains replace_from].
    destruct (String.prefix old (String c s)) eqn:Hp.
    + intros _. apply prefix_length in Hp. simpl in Hp.
      rewrite append_length.
      pose proof (replace_from_length old new s (String.length old - 1)) as Hr.
      assert (Hk : String.length old - 1 ≤ String.length s) by lia.
      apply Hr in Hk; [|destruct old; simpl in *; lia]. simpl. lia.
    + simpl. intros Hs. apply IH in Hs. simpl. lia.
Qed.

Lemma tagged_path_differs (image_path : string) :
  str_contains ".png" image_path || str_contains ".jpg" image_path = true →
  resized_path_of image_path ≠ image_path.
Proof.
  unfold resized_path_of. intros Hc Heq.
  assert (String.length image_path <
          String.length (py_replace ".jpg" "_instagram.jpg"
                           (py_replace ".png" "_instagram.png" image_path)));
    [|rewrite Heq in *; lia].
  assert (Hjpg : String.length (py_replace ".png" "_instagram.png" image_path) ≤
                 String.length (py_replace ".jpg" "_instagram.jpg"
                           (py_replace ".png" "_instagram.png" image_path))).
  { pose proof (replace_from_length ".jpg" "_instagram.jpg"
                  (py_replace ".png" "_instagram.png" image_path) 0) as Hr.
    unfold py_replace at 2. simpl in Hr. rewrite Nat.add_0_r in Hr.
    apply Hr; lia. }
  destruct (str_contains ".png" image_path) eqn:Hpng.
  - apply (replace_grows ".png" "_instagram.png") in Hpng; [|simpl; lia]. lia.
  - rewrite (replace_absent ".png") by done.
    simpl in Hc. apply (replace_grows ".jpg" "_instagram.jpg") in Hc; [|simpl; lia].
    exact Hc.
Qed.

(** X1.  The path the normaliser saves to differs from the path it was given
    exactly when that path contains [.png] or [.jpg]. *)
Theorem derived_path_is_new_iff (image_path : string) :
  resized_path_of image_path ≠ image_path ↔
  str_contains ".png" image_path || str_contains ".jpg" image_path = true.
Proof.
  split; [|apply tagged_path_differs].
  intros Hne. destruct (str_contains ".png" image_path) eqn:Hpng; [done|].
  destruct (str_contains ".jpg" image_path) eqn:Hjpg; [done|].
  unfold resized_path_of in Hne. by rewrite untagged_path in Hne.
Qed.

(** ** The normaliser, file by file *)

Lemma run_resize_files (image_path : string) (w : World) :
  ∃ p t fs,
    run (image_generator.resize_for_instagram image_path) w =
      (Ok p, evolve t fs w) ∧
    Forall (λ c, is_local c = true) t ∧
    ((p = image_path ∧
      (fs = w_fs w ∨
       ∃ partial tr e,
         (is_Some (w_fs w !! resized_path_of image_path) ∨
          save_cleanup_refused (w_out w) tr (resized_path_of image_path) = true) ∧
         io_fault (w_out w) tr (ImageSave (resized_path_of image_path)) = Some e ∧
         fs = <[resized_path_of image_path := DataFile partial]> (w_fs w))) ∨
     (∃ derived,
        is_Some (w_fs w !! image_path) ∧
        img_size derived = (1080, 1080)%Z ∧
        p = resized_path_of image_path ∧
        fs = <[resized_path_of image_path := ImageFile derived]> (w_fs w))).
Proof.
  unfold image_generator.resize_for_instagram. fold (resized_path_of image_path).
  exec.
  destruct (io_fault _ _ _).
  { exec. rewrite append_log_as_evolve. eexists _, _, _.
    split; [reflexivity|]. split; [by repeat constructor|]. left. by split; [|left]. }
  destruct (w_fs w !! image_path) as [[img|?]|] eqn:Hfile;
    try (exec; rewrite append_log_as_evolve; eexists _, _, _;
         split; [reflexivity|]; split; [by repeat constructor|];
         left; by split; [|left]).
  destruct (img_size img) as [width height]. exec.
  destruct (height =? 0)%Z.
  { exec. rewrite append_log_as_evolve. eexists _, _, _.
    split; [reflexivity|]. split; [by repeat constructor|]. left. by split; [|left]. }
  unfold Image_crop.
  destruct (_ || _).
  { exec. rewrite append_log_as_evolve. eexists _, _, _.
    split; [reflexivity|]. split; [by repeat constructor|]. left. by split; [|left]. }
  exec.
  destruct (io_fault _ _ _) as [e|] eqn:Hsave.
  - destruct (save_leftover _ _ _) as [partial|];
      [destruct (bool_decide _ || save_cleanup_refused _ _ _) eqn:Hstays|];
      exec; eexists _, _, _;
      (split; [reflexivity|]); (split; [by repeat constructor|]);
      left; (split; [done|]); [right|by left|by left].
    exists partial. eexists _, e. split; [|by split].
    apply orb_true_iff in Hstays as [Hthere|Hrefused]; [left|right; exact Hrefused].
    by apply bool_decide_eq_true in Hthere.
  - exec. eexists _, _, _.
    split; [reflexivity|]. split; [by repeat constructor|]. right.
    eexists. split; [by eexists|]. split; [|split; reflexivity]. reflexivity.
Qed.

(** X2.  The normaliser never raises.  Either it hands back the path it was
    given, having changed no file, save that a save which failed after it had
    opened the tagged path leaves partial data there, when a file was there
    already or when the file it created could not be removed again; or it
    hands back the tagged path and has written one 1080 x 1080 image there
    and nothing else. *)
Theorem normaliser_outcomes (w : World) (image_path : string) :
  let after := (run (image_generator.resize_for_instagram image_path) w).2 in
  (result_of (image_generator.resize_for_instagram image_path) w = Ok image_path ∧
   (w_fs after = w_fs w ∨
    ∃ partial tr e,
      io_fault (w_out w) tr (ImageSave (resized_path_of image_path)) = Some e ∧
      (is_Some (w_fs w !! resized_path_of image_path) ∨
       save_cleanup_refused (w_out w) tr (resized_path_of image_path) = true) ∧
      w_fs after = <[resized_path_of image_path := DataFile partial]> (w_fs w))) ∨
  (result_of (image_generator.resize_for_instagram image_path) w
     = Ok (resized_path_of image_path) ∧
   ∃ derived,
     img_size derived = (1080, 1080)%Z ∧
     w_fs after = <[resized_path_of image_path := ImageFile derived]> (w_fs w)).
Proof.
  intros after. unfold after, result_of.
  destruct (run_resize_files image_path w) as (p & t & fs & -> & _ & Hfs).
  simpl.
  destruct Hfs as [[-> [->|(partial & tr & e & Htarget & Hfault & ->)]]
                  |(derived & _ & Hsize & -> & ->)].
  - left. split; [done|]. by left.
  - left. split; [done|]. right. by exists partial, tr, e.
  - right. split; [done|]. by exists derived.
Qed.

(** X3.  A file that is missing or is no image makes the normaliser fall
    back: it returns the path it was given after the one failed attempt to
    open it. *)
Theorem normaliser_falls_back_when_unreadable (w : World) (image_path : string) :
  (∀ img, w_fs w !! image_path ≠ Some (ImageFile img)) →
  run (image_generator.resize_for_instagram image_path) w =
    (Ok image_path, append_log [ImageOpen image_path] w).
Proof.
  intros Hfile. unfold image_generator.resize_for_instagram. exec.
  destruct (io_fault _ _ _); [by exec|].
  destruct (w_fs w !! image_path) as [[img|?]|]; [by destruct (Hfile img)| |];
    by exec.
Qed.

(** X4.  An image of height 0 makes the normaliser fall back as well: the
    aspect ratio cannot be computed, nothing is cropped or saved. *)
Theorem normaliser_falls_back_on_zero_height (w : World) (image_path : string)
    (img : Image) (W : Z) :
  w_fs w !! image_path = Some (ImageFile img) →
  img_size img = (W, 0%Z) →
  run (image_generator.resize_for_instagram image_path) w =
    (Ok image_path, append_log [ImageOpen image_path] w).
Proof.
  intros Hfile Hsize. unfold image_generator.resize_for_instagram. exec.
  destruct (io_fault _ _ _); [by exec|].
  rewrite Hfile, Hsize. by exec.
Qed.

(** X5.  When the path contains [.png] or [.jpg], the normaliser leaves the
    original file as it is. *)
Theorem normaliser_keeps_tagged_original (w : World) (image_path : string) :
  str_contains ".png" image_path || str_contains ".jpg" image_path = true →
  w_fs (run (image_generator.resize_for_instagram image_path) w).2 !! image_path
    = w_fs w !! image_path.
Proof.
  intros Hc. apply tagged_path_differs in Hc.
  destruct (run_resize_files image_path w) as (p & t & fs & -> & _ & Hfs).
  simpl.
  destruct Hfs as [[_ [->|(partial & tr & e & _ & _ & ->)]]
                  |(derived & _ & _ & _ & ->)];
    [done| |]; by rewrite lookup_insert_ne.
Qed.

(** ** The normalising workflow, file by file *)

Ltac settle Hfs :=
  exec; rewrite ?append_log_as_evolve;
  eexists _, _, _; (split; [reflexivity|]);
  destruct Hfs as [[? [->|(? & ? & ? & _ & ? & ->)]]
                  |(derived & _ & _ & ? & ->)];
  [ by left
  | right; right; right; eexists _, _, _; split; [eassumption|reflexivity]
  | right; left; exists derived; split; [reflexivity|];
    intros [? Hmid]; discriminate Hmid ].

Lemma generator_files (py_repr : pyval → string) (w : World)
    (image_path caption : string) :
  ∃ d t fs,
    run (image_generator.instagram_post_run py_repr image_path caption) w =
      (Ok d, evolve t fs w) ∧
    (fs = w_fs w ∨
     (∃ derived,
        fs = <[resized_path_of image_path := ImageFile derived]> (w_fs w) ∧
        (is_Some (dict_get "media_id" d) →
         resized_path_of image_path = image_path ∨
         ∃ tr e, io_fault (w_out w) tr (OsRemove (resized_path_of image_path)) = Some e)) ∨
     fs = delete (resized_path_of image_path) (w_fs w) ∨
     (∃ partial tr e,
        io_fault (w_out w) tr (ImageSave (resized_path_of image_path)) = Some e ∧
        fs = <[resized_path_of image_path := DataFile partial]> (w_fs w))).
Proof.
  unfold image_generator.instagram_post_run. exec.
  destruct (negb _ || negb _).
  { exec. eexists _, _, _. split; [reflexivity|]. by left. }
  destruct (String.eqb image_path "").
  { exec. eexists _, _, _. split; [reflexivity|]. by left. }
  exec. destruct (bool_decide _); cbn [negb].
  2:{ exec. eexists _, _, _. split; [reflexivity|]. by left. }
  exec.
  match goal with |- context [run (image_generator.resize_for_instagram ?p) ?w1] =>
    destruct (run_resize_files p w1) as (rp & t1 & fs1 & Hres & _ & Hfs); rewrite Hres
  end.
  cbn [w_fs w_out append_log] in Hfs. clear Hres. exec.
  destruct (cloudinary_reply _ _ _) as [upload_result|e]; [|settle Hfs].
  exec. destruct (py_get upload_result _ _) as [image_url|e]; [|settle Hfs].
  destruct (negb (truthy image_url)); [settle Hfs|].
  exec. destruct (http_reply _ _ _) as [upload_response|e]; [|settle Hfs].
  exec. destruct (resp_json upload_response) as [upload_data|e]; [|settle Hfs].
  exec. destruct (py_in "id" upload_data) as [has_id|e]; [|settle Hfs].
  destruct has_id; cbn [negb].
  2:{ exec. destruct (py_get upload_data _ _) as [err|e]; [|settle Hfs].
      exec. destruct (py_get err _ _) as [error_msg|e]; settle Hfs. }
  exec. destruct (py_getitem upload_data "id") as [cid|e]; [|settle Hfs].
  exec. destruct (http_reply _ _ _) as [publish_response|e]; [|settle Hfs].
  exec. destruct (resp_json publish_response) as [publish_data|e]; [|settle Hfs].
  exec. destruct (py_in "id" publish_data) as [has_id|e]; [|settle Hfs].
  destruct has_id; cbn [negb].
  2:{ exec. destruct (py_get publish_data _ _) as [err|e]; [|settle Hfs].
      exec. destruct (py_get err _ _) as [error_msg|e]; settle Hfs. }
  exec. destruct (String.eqb rp image_path) eqn:Hsame; cbn [negb].
  { apply String.eqb_eq in Hsame. exec.
    destruct (py_getitem publish_data "id") as [mid|e]; [|settle Hfs].
    exec. rewrite ?append_log_as_evolve. eexists _, _, _.
    split; [reflexivity|].
    destruct Hfs as [[_ [->|(partial & tr & e' & _ & Hsave & ->)]]
                    |(derived & _ & _ & Hrp & ->)];
      [by left|right; right; right; by exists partial, tr, e'|].
    right. left. exists derived. split; [reflexivity|]. intros _. left.
    congruence. }
  apply String.eqb_neq in Hsame.
  destruct Hfs as [[Heq _]|(derived & _ & _ & -> & ->)]; [done|].
  exec. destruct (bool_decide _) eqn:Hfound.
  2:{ apply bool_decide_eq_false in Hfound. destruct Hfound.
      rewrite lookup_insert_eq. by eexists. }
  exec. destruct (io_fault _ _ _) as [e|] eqn:Hfault.
  { exec. destruct (py_getitem publish_data "id") as [mid|e'];
      exec; rewrite ?append_log_as_evolve; eexists _, _, _;
      (split; [reflexivity|]); right; left; exists derived;
      (split; [reflexivity|]).
    - intros _. right. by eexists _, _.
    - intros [? Hmid]. discriminate Hmid. }
  rewrite lookup_insert_eq. exec. rewrite delete_insert_eq.
  destruct (py_getitem publish_data "id") as [mid|e]; exec;
    rewrite ?append_log_as_evolve; eexists _, _, _;
    (split; [reflexivity|]); right; right; by left.
Qed.

(** X6.  Whatever happens, the normalising workflow changes no file other
    than the one at the derived path. *)
Theorem workflow_touches_only_derived_path (py_repr : pyval → string)
    (w : World) (image_path caption q : string) :
  q ≠ resized_path_of image_path →
  w_fs (run (image_generator.instagram_post_run py_repr image_path caption) w).2 !! q
    = w_fs w !! q.
Proof.
  intros Hq.
  destruct (generator_files py_repr w image_path caption)
    as (d & t & fs & -> & Hfs).
  simpl.
  destruct Hfs as [->|[(derived & -> & _)|[->|(partial & tr & e & _ & ->)]]];
    [done| | |].
  - by rewrite lookup_insert_ne.
  - by rewrite lookup_delete_ne.
  - by rewrite lookup_insert_ne.
Qed.

(** X7.  After a post that succeeded, with a derived path that differs from
    the original and with a [save] and an [os.remove] that do not fail on it,
    no derived file is left: the files are the ones from before, at most
    without the one at the derived path. *)
Theorem successful_post_leaves_no_derived_file (py_repr : pyval → string)
    (w : World) (image_path caption : string) (d : pydict) :
  resized_path_of image_path ≠ image_path →
  (∀ tr, io_fault (w_out w) tr (ImageSave (resized_path_of image_path)) = None) →
  (∀ tr, io_fault (w_out w) tr (OsRemove (resized_path_of image_path)) = None) →
  result_of (image_generator.instagram_post_run py_repr image_path caption) w = Ok d →
  is_Some (dict_get "media_id" d) →
  let after := (run (image_generator.instagram_post_run py_repr image_path caption) w).2 in
  w_fs after = w_fs w ∨
  w_fs after = delete (resized_path_of image_path) (w_fs w).
Proof.
  intros Hnew Hsave Hremove Hd Hmid after. unfold after, result_of in *.
  destruct (generator_files py_repr w image_path caption)
    as (d' & t & fs & Hrun & Hfs).
  rewrite Hrun in *. simpl in *. injection Hd as ->.
  destruct Hfs as [->|[(derived & -> & Hleft)|[->|(partial & tr & e & He & _)]]];
    [by left| |by right|by rewrite Hsave in He].
  destruct (Hleft Hmid) as [?|(tr & e & He)]; [done|].
  by rewrite Hremove in He.
Qed.

(** ** The polling workflow, stage by stage *)

(** X8.  The polling workflow changes no file, no environment variable and no
    Firebase app. *)
Theorem polling_workflow_touches_no_file (py_repr : pyval → string)
    (w : World) (image_path caption : string) :
  let after := (run (instagram_poster.instagram_post_run py_repr image_path caption) w).2 in
  w_fs after = w_fs w ∧ w_env after = w_env w ∧ w_apps after = w_apps w.
Proof.
  destruct (poster_run py_repr w image_path caption) as (d & t & Hrun & _).
  intros after. unfold after. by rewrite Hrun.
Qed.

Lemma credentials_gate (w : World) :
  credentials_present w = true →
  negb (opt_truthy (w_env w !! "INSTAGRAM_ACCESS_TOKEN"))
  || negb (opt_truthy (w_env w !! "INSTAGRAM_BUSINESS_ACCOUNT_ID")) = false.
Proof.
  unfold credentials_present, token_var, account_var.
  by destruct (opt_truthy _), (opt_truthy _).
Qed.

(** X9.  With credentials set, an image path that is empty or names no file
    makes both workflows return the file-not-found record without a network
    call; for the empty path the disk is not even consulted. *)
Theorem missing_file_no_network (py_repr : pyval → string) (w : World)
    (image_path caption : string) :
  credentials_present w = true →
  image_path = "" ∨ w_fs w !! image_path = None →
  let looked :=
    if String.eqb image_path "" then [] else [PathExists image_path] in
  run (instagram_poster.instagram_post_run py_repr image_path caption) w =
    (Ok [("post_status", PStr ("Image file not found: " +:+ image_path));
         ("success", PBool false)],
     append_log ([Getenv token_var; Getenv account_var] ++ looked) w) ∧
  run (image_generator.instagram_post_run py_repr image_path caption) w =
    (Ok [("post_status", PStr ("Image file not found: " +:+ image_path))],
     append_log ([Getenv token_var; Getenv account_var] ++ looked) w) ∧
  count is_network ([Getenv token_var; Getenv account_var] ++ looked) = 0.
Proof.
  intros Hcred Hpath looked. apply credentials_gate in Hcred.
  unfold looked. split; [|split].
  - unfold instagram_poster.instagram_post_run. exec. rewrite Hcred.
    destruct (String.eqb image_path "") eqn:Hempty; [by exec|].
    apply String.eqb_neq in Hempty. destruct Hpath as [?|Hpath]; [done|].
    exec. rewrite Hpath.
    rewrite bool_decide_eq_false_2 by (by intros [? ?]). by exec.
  - unfold image_generator.instagram_post_run. exec. rewrite Hcred.
    destruct (String.eqb image_path "") eqn:Hempty; [by exec|].
    apply String.eqb_neq in Hempty. destruct Hpath as [?|Hpath]; [done|].
    exec. rewrite Hpath.
    rewrite bool_decide_eq_false_2 by (by intros [? ?]). by exec.
  - by destruct (String.eqb image_path "").
Qed.

(** The polling workflow up to the reply of Cloudinary. *)
Ltac enter_poster Hcred Hpath Hfile :=
  unfold instagram_poster.instagram_post_run; exec;
  rewrite (credentials_gate _ Hcred);
  rewrite (proj2 (String.eqb_neq _ _) Hpath);
  exec; rewrite (bool_decide_eq_true_2 _ Hfile); cbn [negb]; exec.

(** X10.  When Cloudinary answers with an object that has no usable
    [secure_url] (none, [None], or empty), the polling workflow returns the
    upload-failed record and calls the Graph API not once. *)
Theorem upload_without_url_stops (py_repr : pyval → string) (w : World)
    (image_path caption : string) (answer : pydict) :
  credentials_present w = true →
  image_path ≠ "" →
  is_Some (w_fs w !! image_path) →
  upload_reply_of w image_path = Ok (PDict answer) →
  truthy (default PNone (dict_get "secure_url" answer)) = false →
  run (instagram_poster.instagram_post_run py_repr image_path caption) w =
    (Ok [("post_status", PStr "Cloudinary upload failed.");
         ("success", PBool false)],
     append_log (poster_prefix w image_path) w).
Proof.
  intros Hcred Hpath Hfile Hreply Hurl.
  enter_poster Hcred Hpath Hfile.
  unfold upload_reply_of, token_var, account_var in Hreply. rewrite Hreply.
  exec. simpl py_get. exec. rewrite Hurl. by exec.
Qed.

(** X11.  When the Cloudinary upload raises, the polling workflow returns the
    exception record made from the text of that exception and calls the Graph
    API not once. *)
Theorem upload_exception_reported (py_repr : pyval → string) (w : World)
    (image_path caption : string) (e : exn) :
  credentials_present w = true →
  image_path ≠ "" →
  is_Some (w_fs w !! image_path) →
  upload_reply_of w image_path = Raise e →
  run (instagram_poster.instagram_post_run py_repr image_path caption) w =
    (Ok (exception_record e), append_log (poster_prefix w image_path) w).
Proof.
  intros Hcred Hpath Hfile Hreply.
  enter_poster Hcred Hpath Hfile.
  unfold upload_reply_of, token_var, account_var in Hreply. rewrite Hreply.
  by exec.
Qed.

(** The polling workflow up to the reply to its container call. *)
Ltac reach_container Hcred Hpath Hfile Hreply Hurl Htruthy Hbody :=
  enter_poster Hcred Hpath Hfile;
  unfold upload_reply_of, token_var, account_var in Hreply; rewrite Hreply;
  exec; simpl py_get; rewrite Hurl; cbn [default from_option id]; exec;
  rewrite Htruthy;
  cbn [negb]; exec;
  unfold container_body_of, post_body, effective_caption in Hbody;
  lazymatch goal with |- context [http_reply ?o ?tr ?c] =>
    change (http_reply _ _ _) with (http_reply o tr c) in Hbody;
    destruct (http_reply o tr c) as [resp|?]; [|discriminate Hbody]
  end;
  exec; rewrite Hbody; exec.

(** X12.  When the Graph API answers the container call with an object that
    has no [id], the polling workflow returns the container-failed record
    with the message of the error envelope, or with the whole answer as text
    when there is no envelope, and goes no further: no status query and no
    publish call. *)
Theorem container_error_reported (py_repr : pyval → string) (w : World)
    (image_path caption : string) (answer data : pydict) (image_url message : pyval) :
  credentials_present w = true →
  image_path ≠ "" →
  is_Some (w_fs w !! image_path) →
  upload_reply_of w image_path = Ok (PDict answer) →
  dict_get "secure_url" answer = Some image_url →
  truthy image_url = true →
  container_body_of w image_path image_url (effective_caption caption)
    = Ok (PDict data) →
  dict_get "id" data = None →
  (∃ envelope,
     dict_get "error" data = Some (PDict envelope) ∧
     dict_get "message" envelope = Some message) ∨
  (dict_get "error" data = None ∧ message = PStr (py_repr (PDict data))) →
  run (instagram_poster.instagram_post_run py_repr image_path caption) w =
    (Ok [("post_status",
          PStr ("Container creation failed: " +:+ py_str py_repr message));
         ("success", PBool false)],
     append_log
       (poster_prefix w image_path ++
        [container_call w image_url (effective_caption caption)]) w).
Proof.
  intros Hcred Hpath Hfile Hreply Hurl Htruthy Hbody Hid Hmessage.
  reach_container Hcred Hpath Hfile Hreply Hurl Htruthy Hbody.
  simpl py_in. unfold dict_has. rewrite Hid. cbn [negb]. exec.
  simpl py_get.
  destruct Hmessage as [(envelope & -> & Hm)|[-> ->]];
    cbn [default from_option id]; exec.
  - simpl py_get. rewrite Hm. by exec.
  - simpl py_get. by exec.
Qed.

(** X13.  When the Graph API answers the container call with JSON that is no
    object (a string, a list, a number, [null]), the polling workflow ends in
    the exception record, and goes no further: no status query and no publish
    call. *)
Theorem non_object_container_reply (py_repr : pyval → string) (w : World)
    (image_path caption : string) (answer : pydict) (image_url body : pyval) :
  credentials_present w = true →
  image_path ≠ "" →
  is_Some (w_fs w !! image_path) →
  upload_reply_of w image_path = Ok (PDict answer) →
  dict_get "secure_url" answer = Some image_url →
  truthy image_url = true →
  container_body_of w image_path image_url (effective_caption caption) = Ok body →
  (∀ data, body ≠ PDict data) →
  ∃ e,
    run (instagram_poster.instagram_post_run py_repr image_path caption) w =
      (Ok (exception_record e),
       append_log
         (poster_prefix w image_path ++
          [container_call w image_url (effective_caption caption)]) w).
Proof.
  intros Hcred Hpath Hfile Hreply Hurl Htruthy Hbody Hshape.
  reach_container Hcred Hpath Hfile Hreply Hurl Htruthy Hbody.
  destruct body as [| | | |s|l|data]; simpl py_in; exec;
    try (eexists; reflexivity).
  - destruct (str_contains "id" s); cbn [negb]; exec; eexists; reflexivity.
  - destruct (existsb (is_str "id") l); cbn [negb]; exec; eexists; reflexivity.
  - by destruct (Hshape data).
Qed.

(** X14.  Against a status endpoint that always reports [FINISHED], the
    polling workflow never sleeps and issues at most one status query. *)
Theorem ready_container_no_sleep (py_repr : pyval → string) (w : World)
    (image_path caption : string) :
  (∀ tr url, poll_status (w_out w) tr url = Ok (PStr "FINISHED")) →
  let t := calls_of (instagram_poster.instagram_post_run py_repr image_path caption) w in
  count is_sleep t = 0 ∧ seconds_slept t = 0%Z ∧ count is_status_query t ≤ 1.
Proof.
  intros Hready t.
  destruct (poster_run py_repr w image_path caption) as (d & t' & Hrun & Hpaths).
  destruct (observe_run _ _ _ _ Hrun) as [Ht _]. fold t in Ht. rewrite Ht.
  clear Hrun Ht t.
  destruct Hpaths as [[_ Ht]|(image_url & cid & Hpolled)].
  - destruct Ht as [->|[->|[->|[u ->]]]]; repeat split;
      try reflexivity; unfold count; simpl; lia.
  - cbv zeta in Hpolled. simpl poll_calls in Hpolled.
    rewrite Hready in Hpolled. cbn [is_str String.eqb Ascii.eqb Bool.eqb] in Hpolled.
    destruct Hpolled as [(_ & -> & _)|(-> & _)]; repeat split;
      try reflexivity; unfold count; simpl; lia.
Qed.

(** X15.  A caption with anything but whitespace in it is sent as the caller
    wrote it, leading and trailing blanks included, and comes back unchanged
    in the record of a successful post. *)
Theorem nonblank_caption_sent_verbatim (py_repr : pyval → string) (w : World)
    (image_path caption : string) :
  py_strip caption ≠ "" →
  let m := instagram_poster.instagram_post_run py_repr image_path caption in
  Forall (λ c, caption_sent c = None ∨ caption_sent c = Some (PStr caption))
    (calls_of m w) ∧
  ∃ d, result_of m w = Ok d ∧
       (dict_get "caption" d = None ∨ dict_get "caption" d = Some (PStr caption)).
Proof.
  intros Hblank m.
  destruct (poster_run py_repr w image_path caption) as (d & t & Hrun & Hpaths).
  destruct (observe_run _ _ _ _ Hrun) as [Ht Hr]. fold m in Ht, Hr.
  rewrite Ht, Hr. clear Hrun Ht Hr.
  apply String.eqb_neq in Hblank. rewrite Hblank in Hpaths.
  split.
  - destruct Hpaths as [[_ Ht]|(image_url & cid & Hpolled)].
    + destruct Ht as [->|[->|[->|[u ->]]]]; repeat constructor; by right.
    + cbv zeta in Hpolled.
      assert (Hpolls : ∀ url tr,
        Forall (λ c, caption_sent c = None ∨ caption_sent c = Some (PStr caption))
          (poll_calls (w_out w) url 5 tr)).
      { intros url tr. eapply Forall_impl; [apply poll_calls_shape|].
        intros c [->| ->]; by left. }
      destruct Hpolled as [(_ & -> & _)|(-> & _)]; rewrite !Forall_app.
      * split; [|apply Hpolls]. repeat constructor; by right.
      * split; [|split; [apply Hpolls|]]; repeat constructor; by right.
  - exists d. split; [done|].
    destruct Hpaths as [[(_ & _ & Hd) _]|(image_url & cid & Hpolled)]; [by left|].
    cbv zeta in Hpolled.
    destruct Hpolled as [((_ & _ & Hd) & _)|(_ & _ & Hbody)]; [by left|].
    destruct (post_body _ _ _) as [[| | | | | |pd]|];
      try (destruct Hbody as (_ & _ & Hd); by left).
    destruct (dict_get "id" pd) as [mid|].
    + subst d. by right.
    + destruct Hbody as (_ & _ & Hd). by left.
Qed.

(** ** The Firebase initialiser, when it succeeds *)

Lemma run_initialize_app (cred : Credential) (bucket : string) (w : World) :
  run (firebase_admin_initialize_app cred bucket) w =
  match io_fault (w_out w) (w_trace w) (InitializeApp bucket) with
  | Some e => (Raise e, append_log [InitializeApp bucket] w)
  | None =>
      match w_apps w !! "[DEFAULT]" with
      | Some _ =>
          (Raise (Exn ValueError "The default Firebase app already exists."),
           append_log [InitializeApp bucket] w)
      | None =>
          (Ok (),
           set_apps (<["[DEFAULT]" := MkApp cred bucket]> (w_apps w))
             (append_log [InitializeApp bucket] w))
      end
  end.
Proof.
  unfold firebase_admin_initialize_app. rewrite run_bind, run_call.
  destruct (io_fault _ _ _); [done|]. unfold run, prim. simpl.
  by destruct (w_apps w !! "[DEFAULT]").
Qed.

(** X16.  With no app registered, a key file at the Render path or else at the
    local path, a storage bucket set and the Firebase SDK accepting both, the
    initialiser registers exactly the default app, with that bucket and with
    the certificate loaded from the Render path if it exists and from the
    local path otherwise. *)
Theorem initialize_firebase_registers_default_app (w : World) (bucket : string) :
  let render := "/etc/secrets/FIREBASE_SERVICE_ACCOUNT_KEY" in
  let local :=
    default "keys/FirebaseServiceAccountKey.json"
      (w_env w !! "FIREBASE_SERVICE_ACCOUNT_PATH") in
  let chosen := if bool_decide (is_Some (w_fs w !! Path render)) then render else local in
  size (w_apps w) = 0 →
  is_Some (w_fs w !! Path render) ∨ is_Some (w_fs w !! Path local) →
  w_env w !! "FIREBASE_STORAGE_BUCKET" = Some bucket →
  bucket ≠ "" →
  (∀ tr c, io_fault (w_out w) tr c = None) →
  result_of firebase_config.initialize_firebase w = Ok () ∧
  w_apps (run firebase_config.initialize_firebase w).2 =
    {[ "[DEFAULT]" := MkApp (MkCredential chosen) bucket ]} ∧
  w_fs (run firebase_config.initialize_firebase w).2 = w_fs w.
Proof.
  intros render local chosen Hsize Hkey Hbucket Hne Hfault.
  apply map_size_empty_inv in Hsize.
  assert (Hb : opt_truthy (Some bucket) = true).
  { simpl. apply negb_true_iff. by apply String.eqb_neq. }
  unfold result_of, firebase_config.initialize_firebase. exec.
  rewrite Hsize, map_size_empty. rewrite bool_decide_eq_true_2 by done. exec.
  fold render. fold local. unfold chosen.
  destruct (bool_decide (is_Some (w_fs w !! Path render))) eqn:Hr.
  - exec. rewrite Hfault. exec. rewrite Hbucket, Hb. cbn [negb opt_fmt].
    rewrite run_initialize_app. cbn [w_out w_apps append_log].
    rewrite Hfault, Hsize, lookup_empty. simpl.
    by rewrite insert_empty.
  - exec. apply bool_decide_eq_false in Hr.
    destruct Hkey as [?|Hl]; [done|].
    rewrite bool_decide_eq_true_2 by done. exec.
    rewrite Hfault. exec. rewrite Hbucket, Hb. cbn [negb opt_fmt].
    rewrite run_initialize_app. cbn [w_out w_apps append_log].
    rewrite Hfault, Hsize, lookup_empty. simpl.
    by rewrite insert_empty.
Qed.

(** X17.  The initialiser is idempotent: once it has returned normally, a
    second call returns normally too and changes nothing, the call log
    included. *)
Theorem initialize_firebase_idempotent (w : World) :
  result_of firebase_config.initialize_firebase w = Ok () →
  run firebase_config.initialize_firebase
    (run firebase_config.initialize_firebase w).2 =
  (Ok (), (run firebase_config.initialize_firebase w).2).
Proof.
  assert (Hnoop : ∀ w', size (w_apps w') ≠ 0 →
            run firebase_config.initialize_firebase w' = (Ok (), w')).
  { intros w' Hsize. unfold firebase_config.initialize_firebase. exec.
    by rewrite bool_decide_eq_false_2. }
  destruct (decide (size (w_apps w) = 0)) as [Hsize|Hsize].
  2:{ intros _. rewrite (Hnoop w Hsize). simpl. by apply Hnoop. }
  intros Hok. apply Hnoop. revert Hok.
  unfold result_of, firebase_config.initialize_firebase. exec.
  rewrite bool_decide_eq_true_2 by done. exec.
  assert (Hdone : ∀ cred bucket w1,
    w_apps w1 = w_apps w →
    (run (firebase_admin_initialize_app cred bucket) w1).1 = Ok () →
    size (w_apps (run (firebase_admin_initialize_app cred bucket) w1).2) ≠ 0).
  { intros cred bucket w1 Happs. rewrite run_initialize_app.
    destruct (io_fault _ _ _); [done|].
    destruct (w_apps w1 !! "[DEFAULT]") eqn:Hdefault; [done|].
    intros _. simpl. rewrite map_size_insert_None by done. lia. }
  destruct (bool_decide (is_Some (w_fs w !! _))).
  - exec. destruct (io_fault _ _ _); [done|]. exec.
    destruct (negb _); [done|]. by apply Hdone.
  - exec. destruct (bool_decide (is_Some (w_fs w !! _))); [|done].
    exec. destruct (io_fault _ _ _); [done|]. exec.
    destruct (negb _); [done|]. by apply Hdone.
Qed.

(** ** Witnesses of the further properties *)

Lemma normaliser_falls_back_when_unreadable_witness :
  run (image_generator.resize_for_instagram "keys/FirebaseServiceAccountKey.json")
    keyed_world =
  (Ok "keys/FirebaseServiceAccountKey.json",
   append_log [ImageOpen "keys/FirebaseServiceAccountKey.json"] keyed_world).
Proof.
  apply (normaliser_falls_back_when_unreadable keyed_world
           "keys/FirebaseServiceAccountKey.json").
  intros img. by vm_compute.
Defined.

Lemma normaliser_falls_back_on_zero_height_witness :
  run (image_generator.resize_for_instagram "flat.png") flat_world =
  (Ok "flat.png", append_log [ImageOpen "flat.png"] flat_world).
Proof.
  apply (normaliser_falls_back_on_zero_height flat_world "flat.png"
           (MkImage (5, 0)%Z (Decoded 2)) 5).
  - reflexivity.
  - reflexivity.
Defined.

Lemma normaliser_keeps_tagged_original_witness :
  w_fs (run (image_generator.resize_for_instagram "photo.png") ready_world).2
    !! "photo.png" = w_fs ready_world !! "photo.png".
Proof.
  apply (normaliser_keeps_tagged_original ready_world "photo.png").
  reflexivity.
Defined.

Lemma workflow_touches_only_derived_path_witness :
  w_fs (run (image_generator.instagram_post_run sample_repr "photo.png" "hello")
          unhosted_world).2 !! "photo.png"
    = w_fs unhosted_world !! "photo.png".
Proof.
  apply (workflow_touches_only_derived_path sample_repr unhosted_world
           "photo.png" "hello" "photo.png").
  by vm_compute.
Defined.

Lemma successful_post_leaves_no_derived_file_witness :
  w_fs (run (image_generator.instagram_post_run sample_repr "photo.png" "hello")
          ready_world).2 = w_fs ready_world ∨
  w_fs (run (image_generator.instagram_post_run sample_repr "photo.png" "hello")
          ready_world).2 = delete (resized_path_of "photo.png") (w_fs ready_world).
Proof.
  apply (successful_post_leaves_no_derived_file sample_repr ready_world
           "photo.png" "hello"
           [("post_status", PStr "Successfully posted to Instagram!");
            ("media_id", PStr "17900000000000001");
            ("caption", PStr "hello");
            ("image_url", PStr "https://res.cloudinary.com/demo/photo.png")]).
  - by vm_compute.
  - intros tr. reflexivity.
  - intros tr. reflexivity.
  - by vm_compute.
  - by eexists.
Defined.

Lemma missing_file_no_network_witness :
  run (instagram_poster.instagram_post_run sample_repr "nothing.png" "hello")
    ready_world =
  (Ok [("post_status", PStr "Image file not found: nothing.png");
       ("success", PBool false)],
   append_log
     [Getenv token_var; Getenv account_var; PathExists "nothing.png"] ready_world).
Proof.
  apply (missing_file_no_network sample_repr ready_world "nothing.png" "hello").
  - reflexivity.
  - right. reflexivity.
Defined.

Lemma upload_without_url_stops_witness :
  run (instagram_poster.instagram_post_run sample_repr "photo.png" "hello")
    unhosted_world =
  (Ok [("post_status", PStr "Cloudinary upload failed.");
       ("success", PBool false)],
   append_log (poster_prefix unhosted_world "photo.png") unhosted_world).
Proof.
  apply (upload_without_url_stops sample_repr unhosted_world "photo.png" "hello" []).
  - reflexivity.
  - discriminate.
  - by eexists.
  - reflexivity.
  - reflexivity.
Defined.

Lemma upload_exception_reported_witness :
  run (instagram_poster.instagram_post_run sample_repr "photo.png" "hello")
    no_cloudinary_world =
  (Ok (exception_record (Exn RequestException "cloudinary unreachable")),
   append_log (poster_prefix no_cloudinary_world "photo.png") no_cloudinary_world).
Proof.
  apply (upload_exception_reported sample_repr no_cloudinary_world "photo.png" "hello").
  - reflexivity.
  - discriminate.
  - by eexists.
  - reflexivity.
Defined.

Lemma container_error_reported_witness :
  run (instagram_poster.instagram_post_run sample_repr "photo.png" "hello")
    rejecting_world =
  (Ok [("post_status", PStr "Container creation failed: Invalid image");
       ("success", PBool false)],
   append_log
     (poster_prefix rejecting_world "photo.png" ++
      [container_call rejecting_world
         (PStr "https://res.cloudinary.com/demo/photo.png") "hello"])
     rejecting_world).
Proof.
  apply (container_error_reported sample_repr rejecting_world "photo.png" "hello"
           hosted [("error", PDict [("message", PStr "Invalid image")])]
           (PStr "https://res.cloudinary.com/demo/photo.png")
           (PStr "Invalid image")).
  - reflexivity.
  - discriminate.
  - by eexists.
  - reflexivity.
  - reflexivity.
  - reflexivity.
  - reflexivity.
  - reflexivity.
  - left. eexists. split; reflexivity.
Defined.

Lemma non_object_container_reply_witness :
  ∃ e,
    run (instagram_poster.instagram_post_run sample_repr "photo.png" "hello")
      garbled_world =
    (Ok (exception_record e),
     append_log
       (poster_prefix garbled_world "photo.png" ++
        [container_call garbled_world
           (PStr "https://res.cloudinary.com/demo/photo.png") "hello"])
       garbled_world).
Proof.
  apply (non_object_container_reply sample_repr garbled_world "photo.png" "hello"
           hosted (PStr "https://res.cloudinary.com/demo/photo.png")
           (PStr "invalid request")).
  - reflexivity.
  - discriminate.
  - by eexists.
  - reflexivity.
  - reflexivity.
  - reflexivity.
  - reflexivity.
  - discriminate.
Defined.

Lemma ready_container_no_sleep_witness :
  count is_sleep
    (calls_of (instagram_poster.instagram_post_run sample_repr "photo.png" "hello")
       instant_world) = 0 ∧
  seconds_slept
    (calls_of (instagram_poster.instagram_post_run sample_repr "photo.png" "hello")
       instant_world) = 0%Z ∧
  count is_status_query
    (calls_of (instagram_poster.instagram_post_run sample_repr "photo.png" "hello")
       instant_world) ≤ 1.
Proof.
  apply (ready_container_no_sleep sample_repr instant_world "photo.png" "hello").
  intros tr url. reflexivity.
Defined.

Lemma nonblank_caption_sent_verbatim_witness :
  Forall (λ c, caption_sent c = None ∨ caption_sent c = Some (PStr " hi "))
    (calls_of (instagram_poster.instagram_post_run sample_repr "photo.png" " hi ")
       ready_world).
Proof.
  apply (nonblank_caption_sent_verbatim sample_repr ready_world "photo.png" " hi ").
  by vm_compute.
Defined.

Lemma initialize_firebase_registers_default_app_witness :
  result_of firebase_config.initialize_firebase bucket_world = Ok () ∧
  w_apps (run firebase_config.initialize_firebase bucket_world).2 =
    {[ "[DEFAULT]" :=
         MkApp (MkCredential "keys/FirebaseServiceAccountKey.json")
           "demo.appspot.com" ]} ∧
  w_fs (run firebase_config.initialize_firebase bucket_world).2 = w_fs bucket_world.
Proof.
  apply (initialize_firebase_registers_default_app bucket_world "demo.appspot.com").
  - reflexivity.
  - right. by eexists.
  - reflexivity.
  - discriminate.
  - intros tr c. reflexivity.
Defined.

Lemma initialize_firebase_idempotent_witness :
  run firebase_config.initialize_firebase
    (run firebase_config.initialize_firebase bucket_world).2 =
  (Ok (), (run firebase_config.initialize_firebase bucket_world).2).
Proof.
  apply (initialize_firebase_idempotent bucket_world). reflexivity.
Defined.

(** ** The polling workflow, from the upload on *)

Ltac stop_here :=
  exec; eexists _, _; (split; [reflexivity|]); (split; [by split|reflexivity]).

Lemma poster_after_upload (py_repr : pyval → string) (w : World)
    (image_path caption : string) (answer : pydict) (image_url : pyval) :
  credentials_present w = true →
  image_path ≠ "" →
  is_Some (w_fs w !! image_path) →
  upload_reply_of w image_path = Ok (PDict answer) →
  dict_get "secure_url" answer = Some image_url →
  truthy image_url = true →
  ∃ d t,
    run (instagram_poster.instagram_post_run py_repr image_path caption) w =
      (Ok d, append_log t w) ∧
    match container_body_of w image_path image_url (effective_caption caption) with
    | Ok (PDict data) =>
        match dict_get "id" data with
        | Some cid =>
            (failed d ∧
             t = (poster_prefix w image_path ++
                  [container_call w image_url (effective_caption caption)]) ++
                 poll_calls (w_out w) (status_url py_repr w cid) 5
                   (w_trace w ++ poster_prefix w image_path ++
                    [container_call w image_url (effective_caption caption)]) ∧
             ∃ e, poll_end (w_out w) (status_url py_repr w cid) 5
                    (w_trace w ++ poster_prefix w image_path ++
                     [container_call w image_url (effective_caption caption)])
                    None = Raise e)
            ∨
            (t = (poster_prefix w image_path ++
                  [container_call w image_url (effective_caption caption)]) ++
                 poll_calls (w_out w) (status_url py_repr w cid) 5
                   (w_trace w ++ poster_prefix w image_path ++
                    [container_call w image_url (effective_caption caption)]) ++
                 [publish_call w cid] ∧
             (∃ st, poll_end (w_out w) (status_url py_repr w cid) 5
                      (w_trace w ++ poster_prefix w image_path ++
                       [container_call w image_url (effective_caption caption)])
                      None = Ok (Some st)) ∧
             match post_body (w_out w)
                     (w_trace w ++
                      (poster_prefix w image_path ++
                       [container_call w image_url (effective_caption caption)]) ++
                      poll_calls (w_out w) (status_url py_repr w cid) 5
                        (w_trace w ++ poster_prefix w image_path ++
                         [container_call w image_url (effective_caption caption)]))
                     (publish_call w cid) with
             | Ok (PDict pd) =>
                 match dict_get "id" pd with
                 | Some mid => d = posted mid (effective_caption caption) image_url
                 | None => failed d
                 end
             | _ => failed d
             end)
        | None =>
            failed d ∧
            t = poster_prefix w image_path ++
                [container_call w image_url (effective_caption caption)]
        end
    | _ =>
        failed d ∧
        t = poster_prefix w image_path ++
            [container_call w image_url (effective_caption caption)]
    end.
Proof.
  intros Hcred Hpath Hfile Hreply Hurl Htruthy.
  remember (container_body_of w image_path image_url (effective_caption caption))
    as body eqn:Hbody.
  enter_poster Hcred Hpath Hfile.
  unfold upload_reply_of, token_var, account_var in Hreply. rewrite Hreply.
  exec. simpl py_get. rewrite Hurl. cbn [default from_option id]. exec.
  rewrite Htruthy. cbn [negb]. exec.
  unfold container_body_of, post_body, effective_caption in Hbody.
  fold (effective_caption caption).
  lazymatch goal with |- context [http_reply ?o ?tr ?c] =>
    change (http_reply _ _ _) with (http_reply o tr c) in Hbody;
    destruct (http_reply o tr c) as [upload_response|e]
  end.
  2:{ subst body. stop_here. }
  exec. destruct (resp_json upload_response) as [upload_data|e].
  2:{ subst body. stop_here. }
  subst body. exec.
  destruct upload_data as [| | | |s|l|data]; simpl py_in; exec; try stop_here.
  { destruct (str_contains "id" s); cbn [negb]; stop_here. }
  { destruct (existsb (is_str "id") l); cbn [negb]; stop_here. }
  unfold dict_has. simpl py_getitem. simpl py_get.
  destruct (dict_get "id" data) as [cid|]; cbn [negb]; exec.
  2:{ destruct (py_get _ _ _) as [error_msg|e]; stop_here. }
  unfold py_range. exec. rewrite run_poll_loop. exec.
  destruct (poll_end _ _ _ _ _) as [st|e] eqn:Hend.
  2:{ exec. eexists _, _. split; [reflexivity|].
      left. split; [by split|]. split; [reflexivity|]. by exists e. }
  destruct (poll_end_bound _ _ _ _ _ _ Hend) as [[_ ?]|[v ->]]; [done|].
  exec.
  destruct (http_reply _ _ _) as [publish_response|e] eqn:Hpublish.
  2:{ exec. eexists _, _. split; [reflexivity|].
      right. split; [reflexivity|]. split; [by exists v|].
      unfold post_body.
      lazymatch type of Hpublish with ?lhs = _ =>
        change (http_reply _ _ _) with lhs end.
      rewrite Hpublish. by split. }
  exec. destruct (resp_json publish_response) as [publish_data|e] eqn:Hjson.
  2:{ exec. eexists _, _. split; [reflexivity|].
      right. split; [reflexivity|]. split; [by exists v|].
      unfold post_body.
      lazymatch type of Hpublish with ?lhs = _ =>
        change (http_reply _ _ _) with lhs end.
      rewrite Hpublish, Hjson. by split. }
  exec.
  assert (Hpb :
    post_body (w_out w)
      (w_trace w ++
       (poster_prefix w image_path ++
        [container_call w image_url (effective_caption caption)]) ++
       poll_calls (w_out w) (status_url py_repr w cid) 5
         (w_trace w ++ poster_prefix w image_path ++
          [container_call w image_url (effective_caption caption)]))
      (publish_call w cid) = Ok publish_data).
  { unfold post_body.
    lazymatch type of Hpublish with ?lhs = _ =>
      change (http_reply _ _ _) with lhs end.
    by rewrite Hpublish. }
  clear Hpublish Hjson.
  destruct publish_data as [| | | | s|l|pd]; simpl py_in; exec;
    try (eexists _, _; split; [reflexivity|];
         right; split; [reflexivity|]; split; [by exists v|];
         rewrite Hpb; by split).
  - destruct (str_contains "id" s); cbn [negb]; exec;
      eexists _, _; (split; [reflexivity|]);
      right; (split; [reflexivity|]); (split; [by exists v|]);
      rewrite Hpb; by split.
  - destruct (existsb (is_str "id") l); cbn [negb]; exec;
      eexists _, _; (split; [reflexivity|]);
      right; (split; [reflexivity|]); (split; [by exists v|]);
      rewrite Hpb; by split.
  - unfold dict_has. simpl py_getitem. simpl py_get.
    destruct (dict_get "id" pd) as [mid|] eqn:Hid; cbn [negb]; exec.
    + eexists _, _. split; [reflexivity|].
      right. split; [reflexivity|]. split; [by exists v|].
      rewrite Hpb, Hid. reflexivity.
    + destruct (py_get _ _ _) as [error_msg|e]; exec;
        eexists _, _; (split; [reflexivity|]);
        right; (split; [reflexivity|]); (split; [by exists v|]);
        rewrite Hpb, Hid; by split.
Qed.

(** ** The readiness loop, pass by pass *)

Section poll_progress.

Variables (out : Outside) (url : string).

Lemma poll_calls_after_sleep (n : nat) (tr : list Call) (st : option pyval)
    (k : nat) :
  poll_calls out url n tr !! k = Some (Sleep 2%Z) →
  (count is_sleep (take (S k) (poll_calls out url n tr)) < n →
   poll_calls out url n tr !! S k = Some (RequestsGet url)) ∧
  (n ≤ count is_sleep (take (S k) (poll_calls out url n tr)) →
   S k = length (poll_calls out url n tr) ∧
   ∃ v, poll_end out url n tr st = Ok (Some v)).
Proof.
  revert tr st k. induction n as [|n IH]; intros tr st k; [done|].
  simpl poll_calls. simpl poll_end.
  destruct (poll_status out tr url) as [v|e].
  2:{ by destruct k as [|[|k]]. }
  destruct (is_str "FINISHED" v).
  { by destruct k as [|[|k]]. }
  destruct k as [|[|k]]; [done| |].
  - intros _. unfold count. simpl. split.
    + intros Hlt. destruct n as [|n]; [lia|]. reflexivity.
    + intros Hge. destruct n as [|n]; [|lia]. simpl. split; [done|]. by exists v.
  - intros Hk. change ((RequestsGet url :: Sleep 2%Z ::
                          poll_calls out url n (tr ++ [RequestsGet url; Sleep 2%Z]))
                         !! S (S k))
      with (poll_calls out url n (tr ++ [RequestsGet url; Sleep 2%Z]) !! k) in Hk.
    destruct (IH _ (Some v) _ Hk) as [Hlt Hge].
    unfold count in *. simpl. split.
    + intros H. apply Hlt. lia.
    + intros H. destruct Hge as [Hlen Hend]; [lia|]. split; [lia|done].
Qed.

Lemma poll_calls_unfinished (n : nat) (tr : list Call) (st : option pyval) :
  (∀ tr, ∃ v, poll_status out tr url = Ok v ∧ is_str "FINISHED" v = false) →
  count is_status_query (poll_calls out url n tr) = n ∧
  count is_sleep (poll_calls out url n tr) = n ∧
  seconds_slept (poll_calls out url n tr) = (2 * Z.of_nat n)%Z ∧
  ∃ st', poll_end out url n tr st = Ok st'.
Proof.
  intros Hnever. revert tr st. induction n as [|n IH]; intros tr st.
  - repeat split. by eexists.
  - simpl poll_calls. simpl poll_end.
    destruct (Hnever tr) as (v & -> & ->).
    destruct (IH (tr ++ [RequestsGet url; Sleep 2%Z]) (Some v))
      as (Hq & Hs & Hsec & Hend).
    unfold count, seconds_slept in *. simpl. repeat split; [lia|lia|lia|done].
Qed.

End poll_progress.

(** ** C1: the readiness poll *)

(** What holds of every run of the polling workflow, wherever it ends. *)
Lemma poll_policy_bounds (py_repr : pyval → string) (w : World)
    (image_path caption : string) :
  let t := calls_of (instagram_poster.instagram_post_run py_repr image_path caption) w in
  let r := result_of (instagram_poster.instagram_post_run py_repr image_path caption) w in
  count is_status_query t ≤ 5 ∧
  Forall (λ c, is_sleep c = true → c = Sleep 2%Z) t ∧
  (seconds_slept t ≤ 10)%Z ∧
  (∀ k url, t !! k = Some (RequestsGet url) →
     match poll_status (w_out w) (w_trace w ++ take k t) url with
     | Ok v =>
         if is_str "FINISHED" v
         then ∃ c, t !! S k = Some c ∧ is_publish c = true
         else t !! S k = Some (Sleep 2%Z)
     | Raise _ => t !! S k = None
     end) ∧
  count is_publish t ≤ 1 ∧
  (count is_sleep t = 5 →
     ∃ pre c d,
       t = pre ++ [c] ∧ is_publish c = true ∧ count is_publish t = 1 ∧
       r = Ok d ∧
       match post_body (w_out w) (w_trace w ++ pre) c with
       | Ok (PDict pd) =>
           match dict_get "id" pd with
           | Some mid =>
               dict_get "success" d = Some (PBool true) ∧
               dict_get "media_id" d = Some mid
           | None => failed d
           end
       | _ => failed d
       end).
Proof.
  intros t r.
  destruct (poster_run py_repr w image_path caption) as (d & t' & Hrun & Hpaths).
  destruct (observe_run _ _ _ _ Hrun) as [Ht Hr].
  fold t in Ht. fold r in Hr. rewrite Ht, Hr. clear t r Ht Hr Hrun.
  destruct Hpaths as [[Hd Ht]|(image_url & cid & Hpolled)].
  - assert (Hq : count is_status_query t' = 0 ∧ count is_sleep t' = 0 ∧
                 count is_publish t' = 0 ∧ seconds_slept t' = 0%Z ∧
                 Forall (λ c, is_sleep c = true → c = Sleep 2%Z) t' ∧
                 ∀ k url, t' !! k ≠ Some (RequestsGet url)).
    { destruct Ht as [->|[->|[->|[u ->]]]]; repeat split;
        try reflexivity; try (repeat constructor; done);
        intros k url; by repeat (destruct k as [|k]; try done). }
    destruct Hq as (Hq1 & Hq2 & Hq3 & Hq4 & Hq5 & Hq6).
    rewrite Hq1, Hq2, Hq3, Hq4. repeat split; try lia; try done.
    intros k url H. by destruct (Hq6 k url).
  - set (cap := if String.eqb (py_strip caption) "" then _ else _) in *.
    set (pre := poster_prefix w image_path ++ [container_call w image_url cap]) in *.
    set (url := status_url py_repr w cid) in *.
    set (polls := poll_calls (w_out w) url 5 (w_trace w ++ pre)) in *.
    cbv zeta in Hpolled.
    assert (Hpost : ∃ post, t' = pre ++ polls ++ post ∧
              (post = [] ∨ post = [publish_call w cid])).
    { destruct Hpolled as [(_ & -> & _)|(-> & _)];
        [exists []; by rewrite app_nil_r; auto | eexists; eauto]. }
    destruct Hpost as (post & -> & Hpost).
    assert (Hpub : is_publish (publish_call w cid) = true) by reflexivity.
    assert (Hpre : ∀ k u, pre !! k ≠ Some (RequestsGet u)).
    { intros k u. by repeat (destruct k as [|k]; try done). }
    assert (Hlen : length pre = 5) by reflexivity.
    split; [|split; [|split; [|split; [|split]]]].
    + rewrite !count_app.
      pose proof (poll_calls_queries (w_out w) url 5 (w_trace w ++ pre)).
      fold polls in H.
      assert (count is_status_query pre = 0) as -> by reflexivity.
      assert (count is_status_query post = 0) as ->
        by (by destruct Hpost as [-> | ->]).
      lia.
    + rewrite !Forall_app. split; [by repeat constructor|]. split.
      * apply poll_calls_only_sleep_2.
      * destruct Hpost as [-> | ->]; by repeat constructor.
    + rewrite !seconds_slept_app.
      pose proof (poll_calls_seconds (w_out w) url 5 (w_trace w ++ pre)).
      fold polls in H.
      assert (seconds_slept pre = 0%Z) as -> by reflexivity.
      assert (seconds_slept post = 0%Z) as ->
        by (by destruct Hpost as [-> | ->]).
      lia.
    + intros k u Hk.
      apply lookup_app_Some in Hk as [Hk|[Hge Hk]]; [by destruct (Hpre k u)|].
      rewrite Hlen in Hge, Hk.
      apply lookup_app_Some in Hk as [Hk|[Hge' Hk]].
      2:{ destruct Hpost as [-> | ->]; [done|].
          by destruct (k - 5 - length polls) as [|?]. }
      pose proof (lookup_lt_Some _ _ _ Hk) as Hlt.
      destruct (poll_calls_next _ _ _ _ None _ _ Hk) as [-> Hnext].
      fold polls in Hnext.
      replace (take k (pre ++ polls ++ post)) with (pre ++ take (k - 5) polls).
      2:{ rewrite take_app_ge by lia. rewrite Hlen.
          rewrite take_app_le by lia. done. }
      rewrite app_assoc.
      replace (S k) with (length pre + S (k - 5)) by lia.
      rewrite lookup_app_r by lia.
      replace (length pre + S (k - 5) - length pre) with (S (k - 5)) by lia.
      destruct (poll_status _ _ _) as [v|e].
      * destruct (is_str "FINISHED" v).
        -- destruct Hnext as [Hlast Hend].
           destruct Hpolled as [(_ & _ & e & He)|(Heq & _)]; [congruence|].
           apply app_inv_head in Heq. apply app_inv_head in Heq. subst post.
           exists (publish_call w cid). split; [|done].
           rewrite Hlast. by rewrite list_lookup_middle.
        -- by apply lookup_app_l_Some.
      * destruct Hnext as [Hlast Hend].
        destruct Hpolled as [(_ & Heq & _)|(_ & (st & Hst) & _)]; [|congruence].
        apply app_inv_head in Heq.
        assert (post = []) as -> by (apply (app_inv_head polls); by rewrite app_nil_r).
        rewrite app_nil_r. apply lookup_ge_None. lia.
    + rewrite !count_app.
      assert (count is_publish pre = 0) as -> by reflexivity.
      unfold polls. rewrite poll_calls_publish.
      destruct Hpost as [-> | ->]; simpl; unfold count; simpl; lia.
    + rewrite !count_app.
      assert (count is_sleep pre = 0) as -> by reflexivity.
      assert (count is_sleep post = 0) as ->
        by (by destruct Hpost as [-> | ->]).
      intros Hfive.
      destruct Hpolled as [(_ & _ & e & He)|(Heq & _ & Hbody)].
      { apply poll_end_raise in He. fold polls in He. lia. }
      apply app_inv_head in Heq. apply app_inv_head in Heq. subst post.
      exists (pre ++ polls), (publish_call w cid), d.
      split; [by rewrite app_assoc|]. split; [done|]. split.
      { assert (count is_publish pre = 0) as -> by reflexivity.
        unfold polls. by rewrite poll_calls_publish. }
      split; [done|].
      destruct (post_body _ _ _) as [[| | | | | |pd]|]; try done.
      destruct (dict_get "id" pd); [|done]. by subst d.
Qed.

(** What holds of the runs that get as far as the readiness loop. *)
Lemma poll_policy_progress (py_repr : pyval → string) (w : World)
    (image_path caption : string) (answer data : pydict) (image_url cid : pyval) :
  let t := calls_of (instagram_poster.instagram_post_run py_repr image_path caption) w in
  let r := result_of (instagram_poster.instagram_post_run py_repr image_path caption) w in
  credentials_present w = true →
  image_path ≠ "" →
  is_Some (w_fs w !! image_path) →
  upload_reply_of w image_path = Ok (PDict answer) →
  dict_get "secure_url" answer = Some image_url →
  truthy image_url = true →
  container_body_of w image_path image_url (effective_caption caption)
    = Ok (PDict data) →
  dict_get "id" data = Some cid →
  let url := status_url py_repr w cid in
  (∃ rest,
     t = poster_prefix w image_path ++
         [container_call w image_url (effective_caption caption); RequestsGet url] ++
         rest) ∧
  (∀ k u, t !! k = Some (RequestsGet u) → u = url) ∧
  (∀ k, t !! k = Some (Sleep 2%Z) →
     (count is_sleep (take (S k) t) < 5 → t !! S k = Some (RequestsGet url)) ∧
     (5 ≤ count is_sleep (take (S k) t) → t !! S k = Some (publish_call w cid))) ∧
  ((∀ tr, ∃ v, poll_status (w_out w) tr url = Ok v ∧ is_str "FINISHED" v = false) →
   count is_status_query t = 5 ∧ count is_sleep t = 5 ∧
   seconds_slept t = 10%Z ∧ count is_publish t = 1 ∧
   ∃ pre d,
     t = pre ++ [publish_call w cid] ∧ r = Ok d ∧
     match post_body (w_out w) (w_trace w ++ pre) (publish_call w cid) with
     | Ok (PDict pd) =>
         match dict_get "id" pd with
         | Some mid =>
             dict_get "success" d = Some (PBool true) ∧
             dict_get "media_id" d = Some mid
         | None => failed d
         end
     | _ => failed d
     end).
Proof.
  intros t r Hcred Hpath Hfile Hreply Hurl Htruthy Hbody Hid url.
  destruct (poster_after_upload py_repr w image_path caption answer image_url
              Hcred Hpath Hfile Hreply Hurl Htruthy) as (d & t' & Hrun & Hshape).
  destruct (observe_run _ _ _ _ Hrun) as [Ht Hr].
  fold t in Ht. fold r in Hr. rewrite Ht, Hr. clear t r Ht Hr Hrun.
  rewrite Hbody, Hid in Hshape. fold url in Hshape.
  set (pre := poster_prefix w image_path ++
              [container_call w image_url (effective_caption caption)]) in *.
  set (polls := poll_calls (w_out w) url 5 (w_trace w ++ pre)) in *.
  assert (Hpost : ∃ post, t' = pre ++ polls ++ post ∧
            (post = [] ∨ post = [publish_call w cid])).
  { destruct Hshape as [(_ & -> & _)|(-> & _)];
      [exists []; by rewrite app_nil_r; auto | eexists; eauto]. }
  destruct Hpost as (post & Heq & Hpost).
  assert (Hlen : length pre = 5) by reflexivity.
  assert (Hhead : ∃ rest, polls = RequestsGet url :: rest) by (by eexists).
  assert (Hpre : ∀ k c, pre !! k = Some c →
            is_status_query c = false ∧ is_sleep c = false).
  { intros k c Hk. unfold pre, container_call in Hk.
    by repeat (destruct k as [|k]; simplify_eq/=). }
  assert (Hpostc : ∀ k c, post !! k = Some c →
            is_status_query c = false ∧ is_sleep c = false).
  { intros k c Hk. destruct Hpost as [-> | ->]; [done|].
    destruct k as [|k]; by simplify_eq/=. }
  split; [|split; [|split]].
  - destruct Hhead as (rest & Hrest). exists (rest ++ post).
    rewrite Heq, Hrest. unfold pre. by rewrite <- !app_assoc.
  - intros k u Hk. rewrite Heq in Hk.
    apply lookup_app_Some in Hk as [Hk|[_ Hk]].
    { by destruct (Hpre _ _ Hk). }
    apply lookup_app_Some in Hk as [Hk|[_ Hk]].
    2:{ by destruct (Hpostc _ _ Hk). }
    pose proof (poll_calls_shape (w_out w) url 5 (w_trace w ++ pre)) as Hs.
    rewrite Forall_lookup in Hs. destruct (Hs _ _ Hk) as [[= ->]|?]; done.
  - intros k Hk. rewrite Heq in Hk |- *.
    apply lookup_app_Some in Hk as [Hk|[Hge Hk]].
    { by destruct (Hpre _ _ Hk). }
    apply lookup_app_Some in Hk as [Hk|[_ Hk]].
    2:{ by destruct (Hpostc _ _ Hk). }
    rewrite Hlen in Hge, Hk.
    pose proof (lookup_lt_Some _ _ _ Hk) as Hlt.
    destruct (poll_calls_after_sleep _ _ _ _ None _ Hk) as [Hnext Hlast].
    fold polls in Hnext, Hlast.
    assert (Hcount : count is_sleep (take (S k) (pre ++ polls ++ post)) =
                     count is_sleep (take (S (k - 5)) polls)).
    { rewrite take_app_ge by lia. rewrite Hlen, count_app.
      replace (S k - 5) with (S (k - 5)) by lia.
      rewrite take_app_le by lia. reflexivity. }
    rewrite Hcount.
    replace (S k) with (length pre + S (k - 5)) by lia.
    rewrite lookup_app_r by lia.
    replace (length pre + S (k - 5) - length pre) with (S (k - 5)) by lia.
    split.
    + intros H. apply lookup_app_l_Some. by apply Hnext.
    + intros H. destruct (Hlast H) as [Hend (v & Hv)].
      destruct Hshape as [(_ & _ & e & He)|(Heq' & _)]; [congruence|].
      rewrite Heq in Heq'. apply app_inv_head in Heq'. apply app_inv_head in Heq'.
      subst post. rewrite Hend. by rewrite list_lookup_middle.
  - intros Hnever.
    destruct (poll_calls_unfinished (w_out w) url 5 (w_trace w ++ pre) None Hnever)
      as (Hq & Hs & Hsec & st & Hend).
    fold polls in Hq, Hs, Hsec.
    destruct Hshape as [(_ & _ & e & He)|(Heq' & _ & Hreply')]; [congruence|].
    rewrite Heq' in *. clear Heq Hpost Hpostc.
    rewrite !count_app, !seconds_slept_app. fold polls. rewrite Hq, Hs, Hsec.
    assert (count is_publish polls = 0) as ->
      by (unfold polls; by rewrite poll_calls_publish).
    repeat split; try reflexivity.
    exists (pre ++ polls), d. split; [reflexivity|]. split; [done|].
    destruct (post_body _ _ _) as [[| | | | | |pd]|]; try done.
    destruct (dict_get "id" pd); [|done]. by subst d.
Qed.

(** C1.  In every run of the polling workflow: at most 5 status queries are
    issued; every sleep lasts 2 seconds and the sleeps add up to at most 10
    seconds; a status query that returns [FINISHED] is directly followed by
    the publish call (the loop is left at once), one that returns anything
    else is followed by a 2-second sleep, and one that fails ends the run;
    the publish call is issued at most once; and when all 5 passes ended in a
    sleep (none saw [FINISHED]) the publish call is issued exactly once, as
    the last call, and the returned record is decided by its reply alone:
    success with the returned id, a failure record otherwise.

    Further, in every run that reaches the polling stage, that is, whose
    upload returned a URL and whose container call returned an object with an
    [id]: the status query on that container is issued right after the
    container call; every status query is on that container; each of the
    first four sleeps is followed by the next status query and the fifth by
    the publish call; and against a status endpoint that never reports
    [FINISHED] there are exactly 5 status queries and 5 sleeps, 10 seconds in
    all, after which the publish call is issued exactly once, as the last
    call, and its reply alone decides the record. *)
Theorem readiness_poll_policy (py_repr : pyval → string) (w : World)
    (image_path caption : string) :
  (let t := calls_of (instagram_poster.instagram_post_run py_repr image_path caption) w in
  let r := result_of (instagram_poster.instagram_post_run py_repr image_path caption) w in
  count is_status_query t ≤ 5 ∧
  Forall (λ c, is_sleep c = true → c = Sleep 2%Z) t ∧
  (seconds_slept t ≤ 10)%Z ∧
  (∀ k url, t !! k = Some (RequestsGet url) →
     match poll_status (w_out w) (w_trace w ++ take k t) url with
     | Ok v =>
         if is_str "FINISHED" v
         then ∃ c, t !! S k = Some c ∧ is_publish c = true
         else t !! S k = Some (Sleep 2%Z)
     | Raise _ => t !! S k = None
     end) ∧
  count is_publish t ≤ 1 ∧
  (count is_sleep t = 5 →
     ∃ pre c d,
       t = pre ++ [c] ∧ is_publish c = true ∧ count is_publish t = 1 ∧
       r = Ok d ∧
       match post_body (w_out w) (w_trace w ++ pre) c with
       | Ok (PDict pd) =>
           match dict_get "id" pd with
           | Some mid =>
               dict_get "success" d = Some (PBool true) ∧
               dict_get "media_id" d = Some mid
           | None => failed d
           end
       | _ => failed d
       end)) ∧
  (∀ (answer data : pydict) (image_url cid : pyval),
     let t := calls_of (instagram_poster.instagram_post_run py_repr image_path caption) w in
     let r := result_of (instagram_poster.instagram_post_run py_repr image_path caption) w in
     credentials_present w = true →
     image_path ≠ "" →
     is_Some (w_fs w !! image_path) →
     upload_reply_of w image_path = Ok (PDict answer) →
     dict_get "secure_url" answer = Some image_url →
     truthy image_url = true →
     container_body_of w image_path image_url (effective_caption caption)
       = Ok (PDict data) →
     dict_get "id" data = Some cid →
     let url := status_url py_repr w cid in
     (∃ rest,
        t = poster_prefix w image_path ++
            [container_call w image_url (effective_caption caption); RequestsGet url] ++
            rest) ∧
     (∀ k u, t !! k = Some (RequestsGet u) → u = url) ∧
     (∀ k, t !! k = Some (Sleep 2%Z) →
        (count is_sleep (take (S k) t) < 5 → t !! S k = Some (RequestsGet url)) ∧
        (5 ≤ count is_sleep (take (S k) t) → t !! S k = Some (publish_call w cid))) ∧
     ((∀ tr, ∃ v, poll_status (w_out w) tr url = Ok v ∧ is_str "FINISHED" v = false) →
      count is_status_query t = 5 ∧ count is_sleep t = 5 ∧
      seconds_slept t = 10%Z ∧ count is_publish t = 1 ∧
      ∃ pre d,
        t = pre ++ [publish_call w cid] ∧ r = Ok d ∧
        match post_body (w_out w) (w_trace w ++ pre) (publish_call w cid) with
        | Ok (PDict pd) =>
            match dict_get "id" pd with
            | Some mid =>
                dict_get "success" d = Some (PBool true) ∧
                dict_get "media_id" d = Some mid
            | None => failed d
            end
        | _ => failed d
        end)).
Proof.
  split.
  - apply poll_policy_bounds.
  - intros answer data image_url cid. apply poll_policy_progress.
Qed.

Lemma readiness_poll_policy_witness :
  let m := instagram_poster.instagram_post_run sample_repr "photo.png" "hello" in
  let cid := PStr "17800000000000001" in
  let url := status_url sample_repr ready_world cid in
  (∀ tr, ∃ v, poll_status (w_out ready_world) tr url = Ok v ∧
              is_str "FINISHED" v = false) ∧
  (∃ rest,
     calls_of m ready_world =
       poster_prefix ready_world "photo.png" ++
       [container_call ready_world
          (PStr "https://res.cloudinary.com/demo/photo.png")
          (effective_caption "hello");
        RequestsGet url] ++ rest) ∧
  count is_status_query (calls_of m ready_world) = 5 ∧
  count is_sleep (calls_of m ready_world) = 5 ∧
  seconds_slept (calls_of m ready_world) = 10%Z ∧
  count is_publish (calls_of m ready_world) = 1 ∧
  ∃ pre d,
    calls_of m ready_world = pre ++ [publish_call ready_world cid] ∧
    result_of m ready_world = Ok d.
Proof.
  intros m cid url.
  assert (Hnever : ∀ tr, ∃ v, poll_status (w_out ready_world) tr url = Ok v ∧
                              is_str "FINISHED" v = false).
  { intros tr. eexists. split; reflexivity. }
  split; [exact Hnever|].
  destruct (readiness_poll_policy sample_repr ready_world "photo.png" "hello")
    as [_ Hprogress].
  destruct (Hprogress hosted [("id", cid)]
              (PStr "https://res.cloudinary.com/demo/photo.png") cid)
    as (Hfirst & _ & _ & Hexhausted);
    [reflexivity|discriminate|by eexists|reflexivity|reflexivity|reflexivity
    |reflexivity|reflexivity|].
  split; [exact Hfirst|].
  destruct (Hexhausted Hnever) as (Hq & Hs & Hsec & Hpub & pre & d & Ht & Hr & _).
  split; [exact Hq|]. split; [exact Hs|]. split; [exact Hsec|]. split; [exact Hpub|].
  by exists pre, d.
Defined.

(** ** C9: the default caption *)

(** A caption made of whitespace characters only strips to the empty
    string, so it takes the default. *)
Lemma whitespace_only_strips_empty (ws : list string) :
  Forall (λ c, c ∈ py_whitespace) ws → py_strip (joined ws) = "".
Proof.
  intros Hws. unfold py_strip.
  assert (py_lstrip (joined ws) = "") as ->; [|reflexivity].
  unfold py_lstrip.
  induction Hws as [|c ws Hc _ IH]; [done|].
  unfold joined. cbn [foldr]. fold (joined ws).
  generalize dependent (joined ws). intros rest IH.
  vm_compute in Hc.
  repeat (apply elem_of_cons in Hc as [-> | Hc]);
    [.. | by apply elem_of_nil in Hc].
  all: destruct rest; [reflexivity | exact IH].
Qed.

Lemma poll_end_ok (out : Outside) (url : string) (n : nat) (tr : list Call)
    (st : option pyval) :
  (∀ tr, ∃ v, poll_status out tr url = Ok v) →
  ∃ st', poll_end out url n tr st = Ok st'.
Proof.
  intros Hup. revert tr st. induction n as [|n IH]; intros tr st; [by eexists|].
  simpl. destruct (Hup tr) as (v & ->).
  destruct (is_str "FINISHED" v); [by eexists|]. apply IH.
Qed.

Lemma blank_caption_is_default (caption : string) :
  py_strip caption = "" →
  effective_caption caption = instagram_poster.default_caption.
Proof. intros Hblank. unfold effective_caption. by rewrite Hblank. Qed.

(** C9, as the code has it.  When [caption.strip()] is empty, the polling
    workflow goes on with the default caption instead of failing: the run is,
    call for call and in its result, the run of the same workflow handed the
    default caption; every call that carries a caption carries the default
    one, and so does the record of a successful post; once the upload has
    returned a URL the container call is issued, with the default caption;
    and when the Graph API answers every request, with an [id] where one is
    expected, the result is the success record with the default caption.  The
    normalising workflow has no default: whatever caption it sends is the
    caller's, unchanged. *)
Theorem blank_caption_defaulted (py_repr : pyval → string) (w : World)
    (image_path caption : string) :
  py_strip caption = "" →
  let m := instagram_poster.instagram_post_run py_repr image_path caption in
  let dflt := instagram_poster.default_caption in
  run m w = run (instagram_poster.instagram_post_run py_repr image_path dflt) w ∧
  caption_defaulted (calls_of m w) ∧
  (∃ d, result_of m w = Ok d ∧
        (dict_get "caption" d = None ∨ dict_get "caption" d = Some (PStr dflt))) ∧
  (∀ (answer : pydict) (image_url : pyval),
     credentials_present w = true →
     image_path ≠ "" →
     is_Some (w_fs w !! image_path) →
     upload_reply_of w image_path = Ok (PDict answer) →
     dict_get "secure_url" answer = Some image_url →
     truthy image_url = true →
     (∃ rest,
        calls_of m w =
          poster_prefix w image_path ++ [container_call w image_url dflt] ++ rest) ∧
     (∀ (data pd : pydict) (cid mid : pyval),
        container_body_of w image_path image_url dflt = Ok (PDict data) →
        dict_get "id" data = Some cid →
        (∀ tr, ∃ v, poll_status (w_out w) tr (status_url py_repr w cid) = Ok v) →
        (∀ tr, post_body (w_out w) tr (publish_call w cid) = Ok (PDict pd)) →
        dict_get "id" pd = Some mid →
        result_of m w = Ok (posted mid dflt image_url))) ∧
  Forall (plain_call caption)
    (calls_of (image_generator.instagram_post_run py_repr image_path caption) w).
Proof.
  intros Hblank m dflt. split; [|split; [|split; [|split]]].
  5:{ destruct (generator_run py_repr w image_path caption)
        as (d & t & fs & Hrun & Hplain & _).
      by destruct (observe_evolved _ _ _ _ _ Hrun) as [-> _]. }
  4:{ intros answer image_url Hcred Hpath Hfile Hreply Hurl Htruthy.
      destruct (poster_after_upload py_repr w image_path caption answer image_url
                  Hcred Hpath Hfile Hreply Hurl Htruthy) as (d & t & Hrun & Hshape).
      destruct (observe_run _ _ _ _ Hrun) as [Ht Hr]. fold m in Ht, Hr.
      rewrite Ht, Hr. clear Hrun Ht Hr.
      rewrite (blank_caption_is_default caption Hblank) in Hshape. fold dflt in Hshape.
      split.
      - destruct (container_body_of w image_path image_url dflt)
          as [[| | | | | |data]|]; try (destruct Hshape as [_ ->]; by exists []).
        destruct (dict_get "id" data) as [cid|];
          [|destruct Hshape as [_ ->]; by exists []].
        destruct Hshape as [(_ & -> & _)|(-> & _)];
          rewrite <- !app_assoc; by eexists.
      - intros data pd cid mid Hbody Hid Hup Hpub Hmid.
        rewrite Hbody, Hid in Hshape.
        destruct Hshape as [(_ & _ & e & He)|(_ & _ & Hd)].
        + destruct (poll_end_ok (w_out w) (status_url py_repr w cid) 5
                      (w_trace w ++ poster_prefix w image_path ++
                         [container_call w image_url dflt]) None Hup) as (st & Hst).
          congruence.
        + rewrite Hpub, Hmid in Hd. by subst d. }
  { unfold m, instagram_poster.instagram_post_run. rewrite Hblank.
    reflexivity. }
  all: destruct (poster_run py_repr w image_path caption) as (d & t & Hrun & Hpaths);
    destruct (observe_run _ _ _ _ Hrun) as [Ht Hr]; fold m in Ht, Hr;
    rewrite ?Ht, ?Hr; clear Hrun Ht Hr;
    rewrite Hblank in Hpaths; cbn [String.eqb] in Hpaths.
  - unfold caption_defaulted.
    destruct Hpaths as [[_ Ht]|(image_url & cid & Hpolled)].
    + destruct Ht as [->|[->|[->|[u ->]]]]; repeat constructor; by right.
    + cbv zeta in Hpolled.
      assert (Hpolls : ∀ url tr,
        Forall (λ c, caption_sent c = None ∨
                     caption_sent c = Some (PStr instagram_poster.default_caption))
          (poll_calls (w_out w) url 5 tr)).
      { intros url tr. eapply Forall_impl; [apply poll_calls_shape|].
        intros c [->| ->]; by left. }
      destruct Hpolled as [(_ & -> & _)|(-> & _)]; rewrite !Forall_app.
      * split; [|apply Hpolls]. repeat constructor; by right.
      * split; [|split; [apply Hpolls|]]; repeat constructor; by right.
  - exists d. split; [done|].
    destruct Hpaths as [[(_ & _ & Hd) _]|(image_url & cid & Hpolled)]; [by left|].
    cbv zeta in Hpolled.
    destruct Hpolled as [((_ & _ & Hd) & _)|(_ & _ & Hbody)]; [by left|].
    destruct (post_body _ _ _) as [[| | | | | |pd]|];
      try (destruct Hbody as (_ & _ & Hd); by left).
    destruct (dict_get "id" pd) as [mid|].
    + subst d. by right.
    + destruct Hbody as (_ & _ & Hd). by left.
Qed.

(** C9 fails on the normalising workflow: a caption of two spaces is sent
    to the Graph API as it is. *)
Lemma generator_sends_blank_caption :
  py_strip "  " = "" ∧
  ¬ caption_defaulted
      (calls_of (image_generator.instagram_post_run sample_repr "photo.png" "  ")
         ready_world).
Proof.
  split; [reflexivity|]. unfold caption_defaulted. rewrite Forall_lookup.
  intros Hall.
  destruct (Hall 6
              (RequestsPost "https://graph.facebook.com/v21.0/1784140000/media"
                 [("image_url", PStr "https://res.cloudinary.com/demo/photo.png");
                  ("caption", PStr "  ");
                  ("access_token", PStr "EAAB-token")]))
    as [Hc|Hc]; [by vm_compute| |]; vm_compute in Hc; discriminate Hc.
Qed.

Lemma blank_caption_defaulted_witness :
  py_strip "  " = "" ∧
  result_of (instagram_poster.instagram_post_run sample_repr "photo.png" "  ")
    ready_world =
    Ok (posted (PStr "17900000000000001") instagram_poster.default_caption
          (PStr "https://res.cloudinary.com/demo/photo.png")) ∧
  ∃ rest,
    calls_of (instagram_poster.instagram_post_run sample_repr "photo.png" "  ")
      ready_world =
    poster_prefix ready_world "photo.png" ++
    [container_call ready_world (PStr "https://res.cloudinary.com/demo/photo.png")
       instagram_poster.default_caption] ++ rest.
Proof.
  split; [reflexivity|].
  destruct (blank_caption_defaulted sample_repr ready_world "photo.png" "  ")
    as (_ & _ & _ & Hgoes_on & _); [reflexivity|].
  destruct (Hgoes_on hosted (PStr "https://res.cloudinary.com/demo/photo.png"))
    as [Hcall Hposted];
    [reflexivity|discriminate|by eexists|reflexivity|reflexivity|reflexivity|].
  split; [|exact Hcall].
  apply (Hposted [("id", PStr "17800000000000001")]
           [("id", PStr "17900000000000001")]
           (PStr "17800000000000001") (PStr "17900000000000001"));
    [reflexivity|reflexivity| |intros tr; reflexivity|reflexivity].
  intros tr. by eexists.
Defined.

(** ** C10: the Firebase initialiser *)



